(** * code_reviewer.py: latest-PR lookup, diff fetch, AI review, comment post

    A shallow embedding of [src/code_reviewer.py].  The script is a linear
    pipeline of four step functions around three HTTP calls and one call of
    a generative model.  Each step is embedded as a computation in a small
    monad [Py] that reads the outside world (environment variables, what the
    HTTP endpoints and the model answer), logs every effect the step
    performs (console lines, HTTP requests, model calls) and either returns
    a value or raises a Python exception. *)

From Stdlib Require Import ZArith List String Ascii Bool Lia DecimalString.
Import ListNotations.

Set Warnings "-register-all".

Open Scope string_scope.
Open Scope Z_scope.

(** ** Python values and exceptions *)

Module PyRt.

(** The values [response.json()] can produce, plus [None].  JSON numbers are
    restricted to integers (the only numbers in the GitHub payloads the
    script reads).  A [PDict] holds the items of an already built dict, so
    its keys are distinct and the first match is the entry. *)
Inductive pyval : Type :=
| PNone
| PBool (b : bool)
| PInt (n : Z)
| PStr (s : string)
| PList (l : list pyval)
| PDict (items : list (string * pyval)).

(** What [response.json()] makes of a body: a value, or the decoder's
    complaint when the body is not JSON. *)
Inductive parsed : Type :=
| Json (v : pyval)
| NotJson (msg : string).

(** What [requests] hands back: status code, body text, and the body as
    [response.json()] sees it. *)
Record Response : Type := mkResponse {
  status_code : Z;
  text : string;
  json_body : parsed
}.

(** Subclasses of [requests.exceptions.RequestException]. *)
Inductive request_error : Type :=
| ConnectionError | Timeout | HTTPError | JSONDecodeError | OtherRequestError.

Inductive exn : Type :=
| RequestException (kind : request_error) (msg : string) (response : option Response)
| KeyError (msg : string)
| IndexError (msg : string)
| TypeError (msg : string)
| AttributeError (msg : string)
| ValueError (msg : string)
| OtherException (msg : string).

(** [isinstance(e, requests.exceptions.RequestException)]. *)
Definition is_RequestException (e : exn) : bool :=
  match e with
  | RequestException _ _ _ => true
  | _ => false
  end.

(** [e.response] of a caught [RequestException]. *)
Definition exn_response (e : exn) : option Response :=
  match e with
  | RequestException _ _ r => r
  | _ => None
  end.

(** [str(e)]. *)
Definition exn_str (e : exn) : string :=
  match e with
  | RequestException _ m _ => m
  | KeyError m | IndexError m | TypeError m | AttributeError m
  | ValueError m | OtherException m => m
  end.

Inductive outcome (A : Type) : Type :=
| Returned (a : A)
| Raised (e : exn).
Arguments Returned {A} a.
Arguments Raised {A} e.

(** *** Truth values, [str()], subscripts *)

Definition str_truthy (s : string) : bool :=
  match s with EmptyString => false | String _ _ => true end.

Definition truthy (v : pyval) : bool :=
  match v with
  | PNone => false
  | PBool b => b
  | PInt n => negb (n =? 0)
  | PStr s => str_truthy s
  | PList l => match l with [] => false | _ :: _ => true end
  | PDict d => match d with [] => false | _ :: _ => true end
  end.

(** Truth value of a [str | None]. *)
Definition opt_truthy (o : option string) : bool :=
  match o with
  | None => false
  | Some s => str_truthy s
  end.

(** The builtin [all] on a list of already computed truth values. *)
Definition py_all (l : list bool) : bool := forallb (fun b => b) l.

(** [str(n)] for an integer. *)
Definition str_int (n : Z) : string := NilZero.string_of_int (Z.to_int n).

Definition LF : string := String (ascii_of_nat 10) EmptyString.

(** ["c" * n]. *)
Fixpoint str_repeat (c : string) (n : nat) : string :=
  match n with
  | O => EmptyString
  | S k => c ++ str_repeat c k
  end.

(** Strings are kept as their UTF-8 bytes.  A byte [10xxxxxx] continues the
    character begun before it; [utf8_chars] cuts a string into characters. *)
Definition is_continuation (c : ascii) : bool :=
  ((128 <=? Z.of_nat (nat_of_ascii c)) && (Z.of_nat (nat_of_ascii c) <? 192))%bool.

Definition starts_with_continuation (s : string) : bool :=
  match s with
  | EmptyString => false
  | String c _ => is_continuation c
  end.

Fixpoint utf8_chars (s : string) : list string :=
  match s with
  | EmptyString => []
  | String c rest =>
      let tail := utf8_chars rest in
      match starts_with_continuation rest, tail with
      | true, ch :: chs => String c ch :: chs
      | _, _ => String c EmptyString :: tail
      end
  end.

(** [type(v).__name__]. *)
Definition type_name (v : pyval) : string :=
  match v with
  | PNone => "NoneType"
  | PBool _ => "bool"
  | PInt _ => "int"
  | PStr _ => "str"
  | PList _ => "list"
  | PDict _ => "dict"
  end.

(** Python's sequence indexing: negative indices count from the end. *)
Definition seq_index {A : Type} (l : list A) (i : Z) : option A :=
  let n := Z.of_nat (List.length l) in
  if (0 <=? i) && (i <? n) then nth_error l (Z.to_nat i)
  else if (- n <=? i) && (i <? 0) then nth_error l (Z.to_nat (n + i))
  else None.

(** [v[i]] for an integer [i]. *)
Definition getitem_int (v : pyval) (i : Z) : outcome pyval :=
  match v with
  | PList l =>
      match seq_index l i with
      | Some x => Returned x
      | None => Raised (IndexError "list index out of range")
      end
  | PStr s =>
      match seq_index (utf8_chars s) i with
      | Some ch => Returned (PStr ch)
      | None => Raised (IndexError "string index out of range")
      end
  | PDict _ => Raised (KeyError (str_int i))
  | PNone | PBool _ | PInt _ =>
      Raised (TypeError ("'" ++ type_name v ++ "' object is not subscriptable"))
  end.

Fixpoint dict_lookup (items : list (string * pyval)) (k : string) : option pyval :=
  match items with
  | [] => None
  | (k', v) :: rest => if String.eqb k' k then Some v else dict_lookup rest k
  end.

(** [v[k]] for a string [k]. *)
Definition getitem_str (v : pyval) (k : string) : outcome pyval :=
  match v with
  | PDict items =>
      match dict_lookup items k with
      | Some x => Returned x
      | None => Raised (KeyError ("'" ++ k ++ "'"))
      end
  | PList _ => Raised (TypeError "list indices must be integers or slices, not str")
  | PStr _ => Raised (TypeError "string indices must be integers, not 'str'")
  | PNone | PBool _ | PInt _ =>
      Raised (TypeError ("'" ++ type_name v ++ "' object is not subscriptable"))
  end.

(** [v.get(k)]: only a dict has the method. *)
Definition dict_get (v : pyval) (k : string) : outcome pyval :=
  match v with
  | PDict items =>
      match dict_lookup items k with
      | Some x => Returned x
      | None => Returned PNone
      end
  | _ => Raised (AttributeError
                   ("'" ++ type_name v ++ "' object has no attribute 'get'"))
  end.

(** ** The outside world and the effects of a run *)

(** What [requests.get] / [requests.post] do: raise a [RequestException]
    (connection error, timeout, ...) or return a response. *)
Inductive net_result : Type :=
| NetRaises (kind : request_error) (msg : string) (response : option Response)
| NetReturns (r : Response).

(** The response object of the model: its [.text] is a string, or raises
    [ValueError] when the response holds no usable candidate. *)
Inductive model_response : Type :=
| HasText (s : string)
| NoText (msg : string).

(** What [model.generate_content(prompt)] does: raise, or return a
    response. *)
Inductive gen_result : Type :=
| GenRaises (msg : string)
| GenReturns (response : model_response).

Definition headers : Type := list (string * string).

Record World : Type := mkWorld {
  (** [os.environ] once [load_dotenv()] has run *)
  env_lookup : string -> option string;
  (** url, headers, params, timeout *)
  on_get : string -> headers -> list (string * pyval) -> Z -> net_result;
  (** url, headers, json, timeout *)
  on_post : string -> headers -> list (string * pyval) -> Z -> net_result;
  (** api key, model name, prompt *)
  on_generate : string -> string -> string -> gen_result
}.

Inductive event : Type :=
| Print (line : string)
| HttpGet (url : string) (hdrs : headers) (params : list (string * pyval)) (timeout : Z)
| HttpPost (url : string) (hdrs : headers) (json : list (string * pyval)) (timeout : Z)
| Generate (api_key : string) (model : string) (prompt : string).

(** A computation reads the world, logs its effects in order, and returns
    or raises. *)
Definition Py (A : Type) : Type := World -> outcome A * list event.

Definition ret {A : Type} (a : A) : Py A := fun _ => (Returned a, []).

Definition raise {A : Type} (e : exn) : Py A := fun _ => (Raised e, []).

Definition bind {A B : Type} (m : Py A) (f : A -> Py B) : Py B :=
  fun w =>
    match m w with
    | (Returned a, t1) =>
        match f a w with
        | (r, t2) => (r, (t1 ++ t2)%list)
        end
    | (Raised e, t1) => (Raised e, t1)
    end.

Definition lift {A : Type} (o : outcome A) : Py A := fun _ => (o, []).

Definition emit (e : event) : Py unit := fun _ => (Returned tt, [e]).

(** [try: body / except <catches> as e: handler e]. *)
Definition try_except {A : Type} (body : Py A) (catches : exn -> bool)
    (handler : exn -> Py A) : Py A :=
  fun w =>
    match body w with
    | (Returned a, t1) => (Returned a, t1)
    | (Raised e, t1) =>
        if catches e then
          match handler e w with
          | (r, t2) => (r, (t1 ++ t2)%list)
          end
        else (Raised e, t1)
    end.

Definition result {A : Type} (m : Py A) (w : World) : outcome A := fst (m w).
Definition trace {A : Type} (m : Py A) (w : World) : list event := snd (m w).

End PyRt.

Export PyRt.

Notation "x <- m ;; k" := (bind m (fun x => k))
  (at level 61, m at next level, right associativity).
Notation "m ;; k" := (bind m (fun _ => k))
  (at level 61, right associativity).

(** *** The library calls the script makes *)

Definition print (line : string) : Py unit := emit (Print line).

Definition os_getenv (name : string) : Py (option string) :=
  fun w => (Returned (env_lookup w name), []).

Definition net_outcome (r : net_result) : outcome Response :=
  match r with
  | NetRaises kind msg resp => Raised (RequestException kind msg resp)
  | NetReturns r => Returned r
  end.

Definition requests_get (url : string) (hdrs : headers)
    (params : list (string * pyval)) (timeout : Z) : Py Response :=
  fun w => (net_outcome (on_get w url hdrs params timeout),
            [HttpGet url hdrs params timeout]).

Definition requests_post (url : string) (hdrs : headers)
    (json : list (string * pyval)) (timeout : Z) : Py Response :=
  fun w => (net_outcome (on_post w url hdrs json timeout),
            [HttpPost url hdrs json timeout]).

(** [response.raise_for_status()]: an [HTTPError] carrying the response when
    the status code is 4xx or 5xx.  (Its message is never printed: the
    handlers print status and body of the attached response instead.) *)
Definition raise_for_status (r : Response) : Py unit :=
  if (400 <=? status_code r) && (status_code r <? 600)
  then raise (RequestException HTTPError
                (str_int (status_code r) ++ " Error") (Some r))
  else ret tt.

(** [response.json()]: [requests.exceptions.JSONDecodeError], a
    [RequestException] without response, when the body is not JSON. *)
Definition response_json (r : Response) : Py pyval :=
  match json_body r with
  | Json v => ret v
  | NotJson msg => raise (RequestException JSONDecodeError msg None)
  end.

(** [model.generate_content(prompt)] on a model built from
    [genai.configure(api_key=...)] and [genai.GenerativeModel(name)]; the
    result stands for the response object. *)
Definition generate_content (api_key model prompt : string) : Py model_response :=
  fun w =>
    (match on_generate w api_key model prompt with
     | GenRaises msg => Raised (OtherException msg)
     | GenReturns r => Returned r
     end,
     [Generate api_key model prompt]).

(** [response.text] of a model response. *)
Definition generated_text (response : model_response) : Py string :=
  match response with
  | HasText t => ret t
  | NoText msg => raise (ValueError msg)
  end.

(** ** The script *)

(** The text between the triple quotes at [prompt = ...] in
    [get_gemini_review].  The literal has no [f] prefix, so the braces
    around [diff] are ordinary characters of the text. *)
Definition prompt : string := "
        您是一位資深的 Android 開發架構師與頂尖的程式碼審查專家，精通 Kotlin、Java 與 Android Jetpack。
        請根據以下的 pull request diff 內容，針對 Android App 開發提供一份專業、嚴謹且有建設性的程式碼審查報告，並使用【繁體中文】和【Markdown格式】進行回覆。

        您的審查應包含以下 Android 開發的重點：
        1.  **架構與設計模式**：評估是否遵循 MVVM, MVI 等現代 Android 架構。檢查 ViewModel、Repository、UseCase 的職責劃分是否清晰。
        2.  **生命週期管理 (Lifecycle)**：檢查是否有正確處理 Activity/Fragment 的生命週期，避免記憶體洩漏 (Memory Leaks)，例如：不當持有 Context、未取消的 Coroutines 或 RxJava subscriptions。
        3.  **UI/UX 實作**：
            *   **Jetpack Compose**: 檢查 Composable 函數是否高效、可重用且無副作用 (side-effects)。State 管理是否恰當。
            *   **XML Layouts**: 佈局層級是否過深？是否有效使用 `ConstraintLayout`？
        4.  **非同步處理**：評估 Coroutines 或 RxJava 的使用是否恰當，是否在正確的 Dispatcher 上執行任務，以及是否有妥善的錯誤處理。
        5.  **效能與資源**：
            *   指出可能有效能瓶頸或資源浪費的地方 (例如：主線程上的 I/O 操作、不必要的物件創建)。
            *   檢查圖片載入、快取策略是否有效率。
        6.  **Gradle 與相依性**：檢查是否有不推薦使用 (deprecated) 或有安全漏洞的函式庫。相依性管理是否合理。
        7.  **安全性**：檢查是否存在潛在的安全漏洞，例如：不安全的資料儲存、API Key 洩漏、不當的 Intent 處理等。
        8.  **Kotlin/Java 最佳實踐**：評估程式碼是否符合 Kotlin/Java 的慣例與風格指南。

        # 請以清晰、條列式的方式提供您的審查意見。
        # 在報告的最後，請明確總結您是否同意合併此 PR。
        # *   如果同意，請說明原因，並將所有建議的修改以 TODO 列表的形式呈現。
        # *   如果不同意，請說明具體原因，以及需要修改的地方。
        # 請在可能的情況下提供修改後的程式碼範例以供參考。
        
        **報告格式要求**：
        1.  在報告的開頭，請給出一個 **總體評論** (Overall Comments) 的總結。
        2.  接著，以 **條列式** 的方式，針對具體程式碼提出您的 **發現與建議** (Findings & Suggestions)。
        3.  對於每個建議，如果可能，請提供精簡的 **程式碼修改範例**。
        4.  報告應專注於技術層面的分析，保持客觀中立。


        --- 以下是 Pull Request 的 diff 內容 ---
        ```diff
        {diff}
        ```
        --- diff 內容結束 ---
        
        請開始您的 Android Code Review：
        ".

(** The comment the orchestrator builds: a fixed header, then the review. *)
Definition comment_header : string :=
  "### 🤖 Gemini AI Code Review" ++ LF ++ LF ++ "---" ++ LF ++ LF.

Section CodeReviewer.

(** [repr()] of a list or a dict, which [str()] falls back on.  Its quoting
    rules for nested strings are left open: nothing below depends on them. *)
Variable py_repr : pyval -> string.

(** [str(v)], what an f-string puts in place of [{v}]. *)
Definition py_str (v : pyval) : string :=
  match v with
  | PNone => "None"
  | PBool true => "True"
  | PBool false => "False"
  | PInt n => str_int n
  | PStr s => s
  | PList _ | PDict _ => py_repr v
  end.

(** The tail of the [except] handler, as the lookup and the diff fetch
    have it. *)
Definition print_request_error (e : exn) : Py unit :=
  match exn_response e with
  | Some r =>
      print ("   狀態碼: " ++ str_int (status_code r)) ;;
      print ("   回應: " ++ text r)
  | None =>
      print ("   錯誤訊息: " ++ exn_str e)
  end.

Definition get_latest_pr_number (owner repo token : string) : Py pyval :=
  let url := "https://api.github.com/repos/" ++ owner ++ "/" ++ repo ++ "/pulls" in
  let headers :=
    [("Accept", "application/vnd.github.v3+json");
     ("Authorization", "Bearer " ++ token);
     ("X-GitHub-Api-Version", "2022-11-28")] in
  let params :=
    [("state", PStr "open");
     ("sort", PStr "created");
     ("direction", PStr "desc");
     ("per_page", PInt 1);
     ("page", PInt 1)] in
  print ("正在從 GitHub 獲取 " ++ owner ++ "/" ++ repo ++ " 最新的 PR 編號...") ;;
  try_except
    (response <- requests_get url headers params 15 ;;
     raise_for_status response ;;
     pull_requests <- response_json response ;;
     if negb (truthy pull_requests) then
       print "🟡 在這個倉庫中找不到任何開啟的 Pull Request。" ;;
       ret PNone
     else
       first <- lift (getitem_int pull_requests 0) ;;
       latest_pr_number <- lift (getitem_str first "number") ;;
       print ("✅ 成功找到最新的 PR 編號: #" ++ py_str latest_pr_number) ;;
       ret latest_pr_number)
    is_RequestException
    (fun e =>
       print "❌ 錯誤：無法從 GitHub 獲取 PR 列表。" ;;
       print_request_error e ;;
       ret PNone).

Definition get_pr_diff (owner repo : string) (pr_number : pyval) (token : string)
    : Py (option string) :=
  let url := "https://api.github.com/repos/" ++ owner ++ "/" ++ repo
             ++ "/pulls/" ++ py_str pr_number in
  let headers :=
    [("Accept", "application/vnd.github.v3.diff");
     ("Authorization", "Bearer " ++ token);
     ("X-GitHub-Api-Version", "2022-11-28")] in
  print ("正在從 GitHub 獲取 PR #" ++ py_str pr_number ++ " 的 diff 內容...") ;;
  try_except
    (response <- requests_get url headers [] 15 ;;
     raise_for_status response ;;
     print "✅ 成功獲取 diff！" ;;
     ret (Some (text response)))
    is_RequestException
    (fun e =>
       print "❌ 錯誤：無法從 GitHub 獲取 PR 內容。" ;;
       print_request_error e ;;
       ret None).

Definition post_review_to_github (owner repo : string) (pr_number : pyval)
    (token comment : string) : Py unit :=
  let url := "https://api.github.com/repos/" ++ owner ++ "/" ++ repo
             ++ "/issues/" ++ py_str pr_number ++ "/comments" in
  let headers :=
    [("Accept", "application/vnd.github.v3+json");
     ("Authorization", "Bearer " ++ token);
     ("X-GitHub-Api-Version", "2022-11-28")] in
  let data := [("body", PStr comment)] in
  print ("正在將 Code Review 結果發佈到 PR #" ++ py_str pr_number ++ "...") ;;
  try_except
    (response <- requests_post url headers data 30 ;;
     raise_for_status response ;;
     print ("✅ 成功將 Review 留言發佈到 PR #" ++ py_str pr_number ++ "！") ;;
     body <- response_json response ;;
     html_url <- lift (dict_get body "html_url") ;;
     print ("   留言網址: " ++ py_str html_url))
    is_RequestException
    (fun e =>
       print "❌ 錯誤：無法將留言發佈到 GitHub PR。" ;;
       match exn_response e with
       | Some r =>
           print ("   狀態碼: " ++ str_int (status_code r)) ;;
           print ("   回應: " ++ text r) ;;
           if status_code r =? 403 then
             print "   提示：請檢查您的 GITHUB_TOKEN 是否具有 'pull-requests:write' 或 'issues:write' 權限。"
           else ret tt
       | None =>
           print ("   錯誤訊息: " ++ exn_str e)
       end).

Definition get_gemini_review (diff api_key : string) : Py (option string) :=
  if negb (str_truthy diff) then
    print "❌ 錯誤：diff 內容為空，無法進行 Code Review。" ;;
    ret None
  else
    try_except
      (print "正在將 diff 傳送給 Gemini 2.5 Pro 進行 Code Review..." ;;
       response <- generate_content api_key "gemini-2.5-pro" prompt ;;
       print "✅ 成功收到 Gemini 的回覆！" ;;
       review <- generated_text response ;;
       ret (Some review))
      (fun _ => true)
      (fun e =>
         print ("❌ 錯誤：呼叫 Gemini API 時發生問題: " ++ exn_str e) ;;
         ret None).

Definition main : Py unit :=
  github_token <- os_getenv "GITHUB_TOKEN" ;;
  repo_owner <- os_getenv "REPO_OWNER" ;;
  repo_name <- os_getenv "REPO_NAME" ;;
  gemini_api_key <- os_getenv "GEMINI_API_KEY" ;;
  if negb (py_all (map opt_truthy
                     [github_token; repo_owner; repo_name; gemini_api_key])) then
    print "❌ 錯誤：請確保 .env 檔案中已設定 GITHUB_TOKEN, REPO_OWNER, REPO_NAME, 和 GEMINI_API_KEY。"
  else
    match github_token, repo_owner, repo_name, gemini_api_key with
    | Some github_token, Some repo_owner, Some repo_name, Some gemini_api_key =>
        pr_number <- get_latest_pr_number repo_owner repo_name github_token ;;
        if negb (truthy pr_number) then
          print "無法繼續進行 Code Review，因為沒有獲取到 PR 編號。"
        else
          pr_diff <- get_pr_diff repo_owner repo_name pr_number github_token ;;
          match pr_diff with
          | Some pr_diff =>
              if str_truthy pr_diff then
                review <- get_gemini_review pr_diff gemini_api_key ;;
                match review with
                | Some review =>
                    if str_truthy review then
                      print (LF ++ str_repeat "=" 25 ++ " Gemini Code Review 報告 "
                               ++ str_repeat "=" 25) ;;
                      print ("Repository: " ++ repo_owner ++ "/" ++ repo_name) ;;
                      print ("Pull Request: #" ++ py_str pr_number ++ LF) ;;
                      print review ;;
                      print (str_repeat "=" 73 ++ LF) ;;
                      let github_comment := comment_header ++ review in
                      post_review_to_github
                        repo_owner repo_name pr_number github_token github_comment
                    else ret tt
                | None => ret tt
                end
              else ret tt
          | None => ret tt
          end
    | _, _, _, _ => ret tt
    end.

(** ** Observations on a run *)

(** [needle in hay]. *)
Fixpoint str_contains (needle hay : string) : bool :=
  if prefix needle hay then true
  else match hay with
       | EmptyString => false
       | String _ rest => str_contains needle rest
       end.

(** The four steps of the pipeline, as seen on the wire.  The two GETs
    differ by the media type they ask for. *)
Inductive stage : Type := Lookup | FetchDiff | Review | PostComment.

Fixpoint header (name : string) (h : headers) : option string :=
  match h with
  | [] => None
  | (k, v) :: rest => if String.eqb k name then Some v else header name rest
  end.

Definition stage_of (e : event) : option stage :=
  match e with
  | Print _ => None
  | HttpGet _ h _ _ =>
      match header "Accept" h with
      | Some a =>
          if String.eqb a "application/vnd.github.v3.diff"
          then Some FetchDiff else Some Lookup
      | None => Some Lookup
      end
  | HttpPost _ _ _ _ => Some PostComment
  | Generate _ _ _ => Some Review
  end.

(** The network calls of a run, in order. *)
Fixpoint stages (t : list event) : list stage :=
  match t with
  | [] => []
  | e :: rest =>
      match stage_of e with
      | Some s => s :: stages rest
      | None => stages rest
      end
  end.

(** Exit status of the interpreter after [main()]: an uncaught exception
    ends the process with a traceback and status 1. *)
Definition exit_status (o : outcome unit) : Z :=
  match o with
  | Returned _ => 0
  | Raised _ => 1
  end.

(** [raise_for_status] raises on this status code. *)
Definition error_status (r : Response) : bool :=
  (400 <=? status_code r) && (status_code r <? 600).

(** The timeout an HTTP call must carry: 15 s for a GET, 30 s for a POST. *)
Definition timeout_ok (e : event) : Prop :=
  match e with
  | HttpGet _ _ _ timeout => timeout = 15
  | HttpPost _ _ _ timeout => timeout = 30
  | Print _ | Generate _ _ _ => True
  end.

(** The four environment values are present and non-empty. *)
Definition configured (w : World)
    (github_token repo_owner repo_name gemini_api_key : string) : Prop :=
  env_lookup w "GITHUB_TOKEN" = Some github_token /\
  env_lookup w "REPO_OWNER" = Some repo_owner /\
  env_lookup w "REPO_NAME" = Some repo_name /\
  env_lookup w "GEMINI_API_KEY" = Some gemini_api_key /\
  str_truthy github_token = true /\
  str_truthy repo_owner = true /\
  str_truthy repo_name = true /\
  str_truthy gemini_api_key = true.

(** A value read from the environment is missing or empty. *)
Definition missing (o : option string) : Prop := o = None \/ o = Some "".

(** The response attached to the exception that the handler of a GitHub
    step sees after this answer: the one a raised exception carries, or the
    answer itself when [raise_for_status] rejects it. *)
Definition failure_response (answer : net_result) : option Response :=
  match answer with
  | NetRaises _ _ resp => resp
  | NetReturns r => if error_status r then Some r else None
  end.

(** An HTTP call carries the bearer token and the API version. *)
Definition authorized (token : string) (e : event) : Prop :=
  match e with
  | HttpGet _ h _ _ | HttpPost _ h _ _ =>
      header "Authorization" h = Some ("Bearer " ++ token) /\
      header "X-GitHub-Api-Version" h = Some "2022-11-28"
  | Print _ | Generate _ _ _ => True
  end.

(** ** Sample worlds *)

Definition sample_env (name : string) : option string :=
  if String.eqb name "GITHUB_TOKEN" then Some "ghp_example"
  else if String.eqb name "REPO_OWNER" then Some "octo"
  else if String.eqb name "REPO_NAME" then Some "demo"
  else if String.eqb name "GEMINI_API_KEY" then Some "ai_key"
  else None.

(** A world that answers the PR listing with [pulls], the diff request
    (the GET without query parameters) with [diff], the model call with
    [gen] and the comment post with [post]. *)
Definition sample_world (env : string -> option string)
    (pulls diff : net_result) (gen : gen_result) (post : net_result) : World :=
  mkWorld env
    (fun _ _ params _ => match params with [] => diff | _ :: _ => pulls end)
    (fun _ _ _ _ => post)
    (fun _ _ _ => gen).

Definition ok_json (status : Z) (v : pyval) : net_result :=
  NetReturns (mkResponse status "" (Json v)).

Definition ok_text (status : Z) (body : string) : net_result :=
  NetReturns (mkResponse status body
                (NotJson "Expecting value: line 1 column 1 (char 0)")).

Definition one_pr (number : pyval) : pyval := PList [PDict [("number", number)]].

Definition sample_diff : string := "diff --git a/app.py b/app.py".

Definition created : net_result :=
  ok_json 201 (PDict [("html_url", PStr "https://github.com/octo/demo/pull/42#issuecomment-1")]).

(** PR #42, a non-empty diff, the model answers LGTM, the post succeeds. *)
Definition world_lgtm : World :=
  sample_world sample_env (ok_json 200 (one_pr (PInt 42)))
    (ok_text 200 sample_diff) (GenReturns (HasText "LGTM")) created.

(** The listing answers 200 with one entry that has no [number] field. *)
Definition world_no_number : World :=
  sample_world sample_env (ok_json 200 (PList [PDict []]))
    (ok_text 200 sample_diff) (GenReturns (HasText "LGTM")) created.

(** The listing answers 300 (Multiple Choices) with a JSON list. *)
Definition world_300 : World :=
  sample_world sample_env (ok_json 300 (one_pr (PInt 7)))
    (ok_text 200 sample_diff) (GenReturns (HasText "LGTM")) created.

(** No open pull request. *)
Definition world_no_pr : World :=
  sample_world sample_env (ok_json 200 (PList []))
    (ok_text 200 sample_diff) (GenReturns (HasText "LGTM")) created.

(** The newest pull request carries the number 0. *)
Definition world_pr_zero : World :=
  sample_world sample_env (ok_json 200 (one_pr (PInt 0)))
    (ok_text 200 sample_diff) (GenReturns (HasText "LGTM")) created.

(** The diff endpoint answers 200 with an empty body. *)
Definition world_empty_diff : World :=
  sample_world sample_env (ok_json 200 (one_pr (PInt 42)))
    (ok_text 200 "") (GenReturns (HasText "LGTM")) created.

(** Every HTTP call times out. *)
Definition world_timeout : World :=
  sample_world sample_env (NetRaises Timeout "Read timed out." None)
    (NetRaises Timeout "Read timed out." None) (GenReturns (HasText "LGTM"))
    (NetRaises Timeout "Read timed out." None).

(** The repository name is not set. *)
Definition world_no_repo : World :=
  sample_world
    (fun name => if String.eqb name "REPO_NAME" then None else sample_env name)
    (ok_json 200 (one_pr (PInt 42)))
    (ok_text 200 sample_diff) (GenReturns (HasText "LGTM")) created.

(** The comment endpoint answers 201 with a JSON list. *)
Definition world_post_list : World :=
  sample_world sample_env (ok_json 200 (one_pr (PInt 42)))
    (ok_text 200 sample_diff) (GenReturns (HasText "LGTM")) (ok_json 201 (PList [])).

(** The listing answers 404. *)
Definition world_not_found : World :=
  sample_world sample_env
    (NetReturns (mkResponse 404 "Not Found"
                   (Json (PDict [("message", PStr "Not Found")]))))
    (NetReturns (mkResponse 404 "Not Found"
                   (Json (PDict [("message", PStr "Not Found")]))))
    (GenReturns (HasText "LGTM")) created.

(** The listing answers 200 with the JSON value null. *)
Definition world_null_body : World :=
  sample_world sample_env (ok_json 200 PNone)
    (ok_text 200 sample_diff) (GenReturns (HasText "LGTM")) created.

(** The comment endpoint answers 403. *)
Definition world_forbidden : World :=
  sample_world sample_env (ok_json 200 (one_pr (PInt 42)))
    (ok_text 200 sample_diff) (GenReturns (HasText "LGTM"))
    (NetReturns (mkResponse 403 "Resource not accessible"
                   (Json (PDict [("message", PStr "Resource not accessible")])))).

(** The comment endpoint answers 201 with an object without [html_url]. *)
Definition world_no_html_url : World :=
  sample_world sample_env (ok_json 200 (one_pr (PInt 42)))
    (ok_text 200 sample_diff) (GenReturns (HasText "LGTM"))
    (ok_json 201 (PDict [("id", PInt 1)])).

(** The model call raises. *)
Definition world_model_down : World :=
  sample_world sample_env (ok_json 200 (one_pr (PInt 42)))
    (ok_text 200 sample_diff) (GenRaises "429 quota exceeded") created.

(** The model answers without a usable candidate. *)
Definition world_no_text : World :=
  sample_world sample_env (ok_json 200 (one_pr (PInt 42)))
    (ok_text 200 sample_diff) (GenReturns (NoText "no valid Part")) created.

(** A [repr] for the closed examples. *)
Definition sample_repr (v : pyval) : string := "<object>".

(** ** The runs of the orchestrator

    [pipeline w token owner repo key o t]: with the four settings read from
    the environment, [main] ends with outcome [o] after the effects [t].
    The cases follow the gates of [main], in the order it meets them. *)
Inductive pipeline (w : World) (token owner repo key : string)
    : outcome unit -> list event -> Prop :=
| lookup_raised e
    (EL : result (get_latest_pr_number owner repo token) w = Raised e) :
    pipeline w token owner repo key (Raised e)
      (trace (get_latest_pr_number owner repo token) w)
| no_pr_number pr
    (EL : result (get_latest_pr_number owner repo token) w = Returned pr)
    (Tpr : truthy pr = false) :
    pipeline w token owner repo key (Returned tt)
      (trace (get_latest_pr_number owner repo token) w
       ++ [Print "無法繼續進行 Code Review，因為沒有獲取到 PR 編號。"])%list
| no_diff pr pr_diff
    (EL : result (get_latest_pr_number owner repo token) w = Returned pr)
    (Tpr : truthy pr = true)
    (ED : result (get_pr_diff owner repo pr token) w = Returned pr_diff)
    (Td : opt_truthy pr_diff = false) :
    pipeline w token owner repo key (Returned tt)
      (trace (get_latest_pr_number owner repo token) w
       ++ trace (get_pr_diff owner repo pr token) w)%list
| no_review pr d review
    (EL : result (get_latest_pr_number owner repo token) w = Returned pr)
    (Tpr : truthy pr = true)
    (ED : result (get_pr_diff owner repo pr token) w = Returned (Some d))
    (Td : str_truthy d = true)
    (EG : result (get_gemini_review d key) w = Returned review)
    (Tr : opt_truthy review = false) :
    pipeline w token owner repo key (Returned tt)
      (trace (get_latest_pr_number owner repo token) w
       ++ trace (get_pr_diff owner repo pr token) w
       ++ trace (get_gemini_review d key) w)%list
| review_posted pr d review report
    (EL : result (get_latest_pr_number owner repo token) w = Returned pr)
    (Tpr : truthy pr = true)
    (ED : result (get_pr_diff owner repo pr token) w = Returned (Some d))
    (Td : str_truthy d = true)
    (EG : result (get_gemini_review d key) w = Returned (Some review))
    (Tr : str_truthy review = true)
    (Hreport : stages report = [])
    (Hprinted : In (Print review) report) :
    pipeline w token owner repo key
      (result (post_review_to_github owner repo pr token
                 (comment_header ++ review)) w)
      (trace (get_latest_pr_number owner repo token) w
       ++ trace (get_pr_diff owner repo pr token) w
       ++ trace (get_gemini_review d key) w
       ++ report
       ++ trace (post_review_to_github owner repo pr token
                   (comment_header ++ review)) w)%list.

(** ** The runtime on small inputs *)

Example str_int_negative : str_int (-42) = "-42".
Proof. reflexivity. Qed.

Example utf8_chars_mixed : utf8_chars "a🤖b報" = ["a"; "🤖"; "b"; "報"].
Proof. reflexivity. Qed.

Example truthy_zero : truthy (PInt 0) = false /\ truthy (PInt 7) = true.
Proof. split; reflexivity. Qed.

Example first_of_string : getitem_int (PStr "報告") 0 = Returned (PStr "報").
Proof. reflexivity. Qed.

Example last_of_list :
  getitem_int (PList [PInt 1; PInt 2; PInt 3]) (-1) = Returned (PInt 3).
Proof. reflexivity. Qed.

Example number_of_entry :
  getitem_str (PDict [("title", PStr "t"); ("number", PInt 42)]) "number"
  = Returned (PInt 42).
Proof. reflexivity. Qed.

Example number_of_empty_entry :
  getitem_str (PDict []) "number" = Raised (KeyError "'number'").
Proof. reflexivity. Qed.

Example header_is_37_bytes : String.length comment_header = 37%nat.
Proof. reflexivity. Qed.

(** The placeholder is in the text as it stands. *)
Example prompt_keeps_placeholder : str_contains "{diff}" prompt = true.
Proof. vm_compute. reflexivity. Qed.

(** ** How the steps behave *)

Lemma stages_app (t1 t2 : list event) :
  stages (t1 ++ t2)%list = (stages t1 ++ stages t2)%list.
Proof.
  induction t1 as [|e t1 IH]; simpl; [reflexivity|].
  destruct (stage_of e); simpl; now rewrite IH.
Qed.

Lemma In_stages (s : stage) (t : list event) :
  In s (stages t) <-> exists e, In e t /\ stage_of e = Some s.
Proof.
  induction t as [|e t IH]; simpl.
  - split; [tauto | intros (e & [] & _)].
  - destruct (stage_of e) as [s'|] eqn:E; simpl; rewrite ?IH; split.
    + intros [->|(e' & H1 & H2)]; eauto.
    + intros (e' & [->|H1] & H2); [left; congruence | eauto].
    + intros (e' & H1 & H2); eauto.
    + intros (e' & [->|H1] & H2); [congruence | eauto].
Qed.

Lemma stage_of_None (e : event) :
  stage_of e = None -> exists line, e = Print line.
Proof.
  destruct e as [line|u h p t|u h j t|k m p]; simpl; try discriminate; eauto.
  destruct (header "Accept" h) as [a|]; [|discriminate].
  destruct (String.eqb a _); discriminate.
Qed.

(** A trace without network calls holds console lines only. *)
Lemma stages_nil_prints (t : list event) :
  stages t = [] -> forall e, In e t -> exists line, e = Print line.
Proof.
  induction t as [|e' t IH]; simpl; [tauto|].
  destruct (stage_of e') eqn:E; [discriminate|].
  intros H e [<-|Hin]; [now apply stage_of_None | now apply IH].
Qed.

Lemma run_eta {A : Type} (m : Py A) w : m w = (result m w, trace m w).
Proof. unfold result, trace. now destruct (m w). Qed.

(** Run a step: unfold the monad, compute what is known, and split on the
    next thing the step inspects (innermost first). *)
Ltac py_red :=
  cbv beta iota zeta delta
      [result trace fst snd bind try_except ret raise lift emit print
       print_request_error requests_get requests_post raise_for_status
       response_json generate_content generated_text os_getenv net_outcome
       is_RequestException exn_response getitem_int getitem_str dict_get] in *;
  cbn [app stages stage_of header String.eqb Ascii.eqb Bool.eqb negb andb] in *.

Ltac py_case :=
  match goal with
  | |- context [match ?x with _ => _ end] =>
      lazymatch x with
      | context [match _ with _ => _ end] => fail
      | _ => destruct x eqn:?
      end
  end.

Ltac py_run := py_red; repeat (py_case; py_red).

Lemma get_latest_pr_number_stages (owner repo token : string) (w : World) :
  stages (trace (get_latest_pr_number owner repo token) w) = [Lookup].
Proof. unfold get_latest_pr_number. py_run; reflexivity. Qed.

Lemma get_pr_diff_stages owner repo pr token (w : World) :
  stages (trace (get_pr_diff owner repo pr token) w) = [FetchDiff].
Proof. unfold get_pr_diff. py_run; reflexivity. Qed.

(** The diff fetch never raises. *)
Lemma get_pr_diff_returns owner repo pr token (w : World) :
  exists o, result (get_pr_diff owner repo pr token) w = Returned o.
Proof. unfold get_pr_diff. py_run; eauto. Qed.

(** Review generation never raises: its handler takes every exception. *)
Lemma get_gemini_review_returns diff api_key (w : World) :
  exists o, result (get_gemini_review diff api_key) w = Returned o.
Proof. unfold get_gemini_review. py_run; eauto. Qed.

(** On a non-empty diff the model is called once, with the fixed text. *)
Lemma get_gemini_review_trace diff api_key (w : World) :
  str_truthy diff = true ->
  exists rest,
    trace (get_gemini_review diff api_key) w =
      Print "正在將 diff 傳送給 Gemini 2.5 Pro 進行 Code Review..."
      :: Generate api_key "gemini-2.5-pro" prompt :: rest
    /\ stages rest = [].
Proof.
  intros Hd. unfold get_gemini_review. rewrite Hd. py_run; eauto.
Qed.

Lemma get_gemini_review_stages diff api_key (w : World) :
  stages (trace (get_gemini_review diff api_key) w) =
  if str_truthy diff then [Review] else [].
Proof.
  destruct (str_truthy diff) eqn:Hd.
  - destruct (get_gemini_review_trace diff api_key w Hd) as (rest & -> & Hr).
    simpl. now rewrite Hr.
  - unfold get_gemini_review. rewrite Hd. reflexivity.
Qed.

(** The comment post: one POST of [{"body": comment}] to the issue-comment
    endpoint of the pull request, console lines around it. *)
Lemma post_review_to_github_trace owner repo pr token comment (w : World) :
  exists line rest,
    trace (post_review_to_github owner repo pr token comment) w =
      Print line
      :: HttpPost ("https://api.github.com/repos/" ++ owner ++ "/" ++ repo
                   ++ "/issues/" ++ py_str pr ++ "/comments")
           [("Accept", "application/vnd.github.v3+json");
            ("Authorization", "Bearer " ++ token);
            ("X-GitHub-Api-Version", "2022-11-28")]
           [("body", PStr comment)] 30
      :: rest
    /\ stages rest = [].
Proof. unfold post_review_to_github. py_run; eauto. Qed.

Lemma post_review_to_github_stages owner repo pr token comment (w : World) :
  stages (trace (post_review_to_github owner repo pr token comment) w)
  = [PostComment].
Proof.
  destruct (post_review_to_github_trace owner repo pr token comment w)
    as (line & rest & -> & Hr).
  simpl. now rewrite Hr.
Qed.

(** *** What each GitHub step returns, by what the endpoint answered *)

Lemma get_latest_pr_number_run owner repo token (w : World) :
  let url := "https://api.github.com/repos/" ++ owner ++ "/" ++ repo ++ "/pulls" in
  let hdrs :=
    [("Accept", "application/vnd.github.v3+json");
     ("Authorization", "Bearer " ++ token);
     ("X-GitHub-Api-Version", "2022-11-28")] in
  let params :=
    [("state", PStr "open"); ("sort", PStr "created");
     ("direction", PStr "desc"); ("per_page", PInt 1); ("page", PInt 1)] in
  (exists line rest,
     trace (get_latest_pr_number owner repo token) w =
       Print line :: HttpGet url hdrs params 15 :: rest
     /\ stages rest = []) /\
  result (get_latest_pr_number owner repo token) w =
    match on_get w url hdrs params 15 with
    | NetRaises _ _ _ => Returned PNone
    | NetReturns r =>
        if error_status r then Returned PNone
        else match json_body r with
             | NotJson _ => Returned PNone
             | Json pull_requests =>
                 if negb (truthy pull_requests) then Returned PNone
                 else match getitem_int pull_requests 0 with
                      | Returned first => getitem_str first "number"
                      | Raised e => Raised e
                      end
             end
    end.
Proof.
  unfold get_latest_pr_number, error_status. split; py_run; eauto.
Qed.

Lemma get_pr_diff_run owner repo pr token (w : World) :
  let url := "https://api.github.com/repos/" ++ owner ++ "/" ++ repo
             ++ "/pulls/" ++ py_str pr in
  let hdrs :=
    [("Accept", "application/vnd.github.v3.diff");
     ("Authorization", "Bearer " ++ token);
     ("X-GitHub-Api-Version", "2022-11-28")] in
  (exists line rest,
     trace (get_pr_diff owner repo pr token) w =
       Print line :: HttpGet url hdrs [] 15 :: rest
     /\ stages rest = []) /\
  result (get_pr_diff owner repo pr token) w =
    match on_get w url hdrs [] 15 with
    | NetRaises _ _ _ => Returned None
    | NetReturns r =>
        if error_status r then Returned None else Returned (Some (text r))
    end.
Proof.
  unfold get_pr_diff, error_status. split; py_run; eauto.
Qed.

Lemma post_review_to_github_run owner repo pr token comment (w : World) :
  let url := "https://api.github.com/repos/" ++ owner ++ "/" ++ repo
             ++ "/issues/" ++ py_str pr ++ "/comments" in
  let hdrs :=
    [("Accept", "application/vnd.github.v3+json");
     ("Authorization", "Bearer " ++ token);
     ("X-GitHub-Api-Version", "2022-11-28")] in
  let data := [("body", PStr comment)] in
  (forall kind msg resp,
     on_post w url hdrs data 30 = NetRaises kind msg resp ->
     exists line rest,
       trace (post_review_to_github owner repo pr token comment) w =
         Print line :: HttpPost url hdrs data 30
         :: Print "❌ 錯誤：無法將留言發佈到 GitHub PR。" :: rest) /\
  result (post_review_to_github owner repo pr token comment) w =
    match on_post w url hdrs data 30 with
    | NetRaises _ _ _ => Returned tt
    | NetReturns r =>
        if error_status r then Returned tt
        else match json_body r with
             | NotJson _ => Returned tt
             | Json body =>
                 match dict_get body "html_url" with
                 | Returned _ => Returned tt
                 | Raised e => Raised e
                 end
             end
    end.
Proof.
  unfold post_review_to_github, error_status. cbv zeta. split.
  - intros kind msg resp E. py_red. rewrite E. py_run; eauto.
  - py_run; eauto.
Qed.

(** The one network call among console lines. *)
Lemma In_get_inv u h p t line u' h' p' t' rest :
  In (HttpGet u h p t) (Print line :: HttpGet u' h' p' t' :: rest) ->
  stages rest = [] ->
  u = u' /\ h = h' /\ p = p' /\ t = t'.
Proof.
  intros [H|[H|H]] Hr; try discriminate.
  - now inversion H.
  - destruct (stages_nil_prints _ Hr _ H); discriminate.
Qed.

Lemma In_post_inv u h j t line u' h' j' t' rest :
  In (HttpPost u h j t) (Print line :: HttpPost u' h' j' t' :: rest) ->
  stages rest = [] ->
  u = u' /\ h = h' /\ j = j' /\ t = t'.
Proof.
  intros [H|[H|H]] Hr; try discriminate.
  - now inversion H.
  - destruct (stages_nil_prints _ Hr _ H); discriminate.
Qed.

(** ** How the orchestrator behaves *)

(** The gate on the environment, when it closes. *)
Lemma main_unconfigured (w : World) :
  py_all (map opt_truthy
            [env_lookup w "GITHUB_TOKEN"; env_lookup w "REPO_OWNER";
             env_lookup w "REPO_NAME"; env_lookup w "GEMINI_API_KEY"]) = false ->
  main w =
  (Returned tt,
   [Print "❌ 錯誤：請確保 .env 檔案中已設定 GITHUB_TOKEN, REPO_OWNER, REPO_NAME, 和 GEMINI_API_KEY。"]).
Proof.
  intros H. unfold main. cbv beta iota delta [bind os_getenv].
  rewrite H. reflexivity.
Qed.

Lemma missing_not_truthy (o : option string) : missing o -> opt_truthy o = false.
Proof. now intros [->| ->]. Qed.

Lemma configured_or_not (w : World) :
  (exists token owner repo key, configured w token owner repo key) \/
  py_all (map opt_truthy
            [env_lookup w "GITHUB_TOKEN"; env_lookup w "REPO_OWNER";
             env_lookup w "REPO_NAME"; env_lookup w "GEMINI_API_KEY"]) = false.
Proof.
  unfold configured.
  destruct (env_lookup w "GITHUB_TOKEN") as [token|]; [|now right].
  destruct (env_lookup w "REPO_OWNER") as [owner|];
    [|right; simpl; now rewrite andb_false_r].
  destruct (env_lookup w "REPO_NAME") as [repo|];
    [|right; simpl; now rewrite !andb_false_r].
  destruct (env_lookup w "GEMINI_API_KEY") as [key|];
    [|right; simpl; now rewrite !andb_false_r].
  simpl.
  destruct (str_truthy token) eqn:Tt; [|now right].
  destruct (str_truthy owner) eqn:To; [|now right].
  destruct (str_truthy repo) eqn:Tr; [|now right].
  destruct (str_truthy key) eqn:Tk; [|now right].
  left. exists token, owner, repo, key. repeat split; assumption || reflexivity.
Qed.

(** With the four settings in place, a run of [main] is one of the runs of
    [pipeline]. *)
Lemma main_pipeline (w : World) (token owner repo key : string) :
  configured w token owner repo key ->
  pipeline w token owner repo key (result main w) (trace main w).
Proof.
  intros (Ht & Ho & Hr & Hk & Tt & To & Tr & Tk).
  unfold result at 1, trace at 1, main. cbv beta iota delta [bind os_getenv].
  rewrite Ht, Ho, Hr, Hk. cbn [map py_all forallb opt_truthy].
  rewrite Tt, To, Tr, Tk. cbn [andb negb]. clear Tt To Tr Tk.
  rewrite (run_eta (get_latest_pr_number owner repo token) w).
  destruct (result (get_latest_pr_number owner repo token) w) as [pr|e] eqn:EL;
    cbn [fst snd]; [|now apply lookup_raised].
  destruct (truthy pr) eqn:Tpr; cbn [negb print emit fst snd];
    [|eapply no_pr_number; eassumption].
  rewrite (run_eta (get_pr_diff owner repo pr token) w).
  destruct (get_pr_diff_returns owner repo pr token w) as [pr_diff ED].
  rewrite ED.
  destruct pr_diff as [d|]; cbn [ret fst snd];
    [|rewrite app_nil_r; eapply no_diff; eauto].
  destruct (str_truthy d) eqn:Td; cbn [ret fst snd];
    [|rewrite app_nil_r; eapply no_diff; eauto].
  rewrite (run_eta (get_gemini_review d key) w).
  destruct (get_gemini_review_returns d key w) as [review EG].
  rewrite EG.
  destruct review as [review|]; cbn [ret fst snd];
    [|rewrite app_nil_r; eapply no_review; eauto].
  destruct (str_truthy review) eqn:Trv; cbn [ret fst snd];
    [|rewrite app_nil_r; eapply no_review; eauto].
  rewrite (run_eta (post_review_to_github owner repo pr token
                      (comment_header ++ review)) w).
  cbn [fst snd app].
  match goal with
  | |- pipeline _ _ _ _ _ _
         (_ ++ _ ++ _ ++ ?p1 :: ?p2 :: ?p3 :: ?p4 :: ?p5 :: ?post)%list =>
      change (p1 :: p2 :: p3 :: p4 :: p5 :: post)
        with ([p1; p2; p3; p4; p5] ++ post)%list
  end.
  apply review_posted; try assumption; [reflexivity | simpl; tauto].
Qed.

(** Two facts about one step in one world name the same result. *)
Ltac same_result :=
  repeat match goal with
         | H1 : ?x = Returned ?a, H2 : ?x = Returned ?b |- _ =>
             rewrite H1 in H2; injection H2 as H2; subst
         | H1 : ?x = Returned _, H2 : ?x = Raised _ |- _ =>
             rewrite H1 in H2; discriminate H2
         | H : Some _ = Some _ |- _ => injection H as H; try subst
         | H : Some _ = None |- _ => discriminate H
         | H : None = Some _ |- _ => discriminate H
         end.

(** Membership in a short explicit list. *)
Ltac in_cases :=
  repeat match goal with
         | H : _ \/ _ |- _ => destruct H
         | H : False |- _ => destruct H
         | H : @eq stage _ _ |- _ => discriminate H
         end.

#[local] Arguments get_latest_pr_number : simpl never.
#[local] Arguments get_pr_diff : simpl never.
#[local] Arguments get_gemini_review : simpl never.
#[local] Arguments post_review_to_github : simpl never.
#[local] Arguments main : simpl never.
#[local] Arguments result : simpl never.
#[local] Arguments trace : simpl never.

Ltac stages_simpl :=
  rewrite ?stages_app, ?get_latest_pr_number_stages, ?get_pr_diff_stages,
    ?get_gemini_review_stages, ?post_review_to_github_stages.

Lemma pipeline_stages w token owner repo key o t :
  pipeline w token owner repo key o t ->
  exists n, stages t = firstn n [Lookup; FetchDiff; Review; PostComment].
Proof.
  intros P. destruct P; stages_simpl.
  - now exists 1%nat.
  - now exists 1%nat.
  - now exists 2%nat.
  - rewrite Td. now exists 3%nat.
  - rewrite Td, Hreport. now exists 4%nat.
Qed.

Lemma In_post_stages u h j t (tr : list event) :
  In (HttpPost u h j t) tr -> In PostComment (stages tr).
Proof. intros H. apply In_stages. eauto. Qed.

(** The review guard on a falsy diff. *)
Lemma get_gemini_review_guard diff api_key (w : World) :
  str_truthy diff = false ->
  result (get_gemini_review diff api_key) w = Returned None.
Proof. intros H. unfold get_gemini_review. now rewrite H. Qed.

Lemma timeout_ok_of_stages (t : list event) :
  (forall s, In s (stages t) -> s = Review) -> Forall timeout_ok t.
Proof.
  induction t as [|e t IH]; intros H; constructor.
  - destruct e as [line|u h p tm|u h j tm|k m p]; simpl; trivial.
    + specialize (H (match header "Accept" h with
                     | Some a => if String.eqb a "application/vnd.github.v3.diff"
                                 then FetchDiff else Lookup
                     | None => Lookup
                     end)).
      simpl in H. destruct (header "Accept" h) as [a|];
        [destruct (String.eqb a _)|]; (discriminate H; now left).
    + specialize (H PostComment). simpl in H. discriminate H. now left.
  - apply IH. intros s Hs. apply H. simpl. destruct (stage_of e); simpl; auto.
Qed.

Lemma get_latest_pr_number_timeouts owner repo token (w : World) :
  Forall timeout_ok (trace (get_latest_pr_number owner repo token) w).
Proof.
  destruct (get_latest_pr_number_run owner repo token w)
    as [(line & rest & -> & Hr) _].
  repeat constructor. apply timeout_ok_of_stages. now rewrite Hr.
Qed.

Lemma get_pr_diff_timeouts owner repo pr token (w : World) :
  Forall timeout_ok (trace (get_pr_diff owner repo pr token) w).
Proof.
  destruct (get_pr_diff_run owner repo pr token w)
    as [(line & rest & -> & Hr) _].
  repeat constructor. apply timeout_ok_of_stages. now rewrite Hr.
Qed.

Lemma get_gemini_review_timeouts diff api_key (w : World) :
  Forall timeout_ok (trace (get_gemini_review diff api_key) w).
Proof.
  apply timeout_ok_of_stages. rewrite get_gemini_review_stages.
  destruct (str_truthy diff); simpl; intuition.
Qed.

Lemma post_review_to_github_timeouts owner repo pr token comment (w : World) :
  Forall timeout_ok (trace (post_review_to_github owner repo pr token comment) w).
Proof.
  destruct (post_review_to_github_trace owner repo pr token comment w)
    as (line & rest & -> & Hr).
  repeat constructor. apply timeout_ok_of_stages. now rewrite Hr.
Qed.

Lemma pipeline_timeouts w token owner repo key o t :
  pipeline w token owner repo key o t -> Forall timeout_ok t.
Proof.
  intros P. destruct P; rewrite ?Forall_app; repeat split;
    auto using get_latest_pr_number_timeouts, get_pr_diff_timeouts,
      get_gemini_review_timeouts, post_review_to_github_timeouts.
  - repeat constructor.
  - apply timeout_ok_of_stages. rewrite Hreport. intros s [].
Qed.


(** ** The claims *)

(** C1 (the code departs from it).  The claim: for a non-empty diff the
    prompt handed to the model embeds the diff.  The code: the prompt is the
    fixed text [prompt], whatever the diff; for the diff [sample_diff] the
    one model call carries [prompt], in which that diff does not occur. *)
Theorem C1_submitted_prompt_omits_diff (api_key : string) (w : World) :
  (exists rest,
     trace (get_gemini_review sample_diff api_key) w =
       Print "正在將 diff 傳送給 Gemini 2.5 Pro 進行 Code Review..."
       :: Generate api_key "gemini-2.5-pro" prompt :: rest
     /\ stages rest = []) /\
  str_contains sample_diff prompt = false.
Proof.
  split.
  - apply get_gemini_review_trace. reflexivity.
  - vm_compute. reflexivity.
Qed.

(** C2.  Review generation on the empty diff, with any API key and in any
    world, returns [None], and all it does is print: no call of the model
    (nor any other network call) is made. *)
Theorem C2_empty_diff_returns_absence (api_key : string) (w : World) :
  result (get_gemini_review "" api_key) w = Returned None /\
  stages (trace (get_gemini_review "" api_key) w) = [] /\
  (forall e, In e (trace (get_gemini_review "" api_key) w) ->
             exists line, e = Print line).
Proof.
  split; [reflexivity|]. split; [reflexivity|].
  apply stages_nil_prints. reflexivity.
Qed.

(** C3.  In a configured run where the lookup returned [pr], the diff fetch
    returned a diff and review generation returned the text [review]: every
    comment [main] posts has the body [comment_header ++ review], nothing
    else, and goes to the issue-comment endpoint of [pr]; and when [pr] and
    [review] are truthy (so that [main] reaches the post) it posts that
    comment, as the last of the four network calls. *)
Theorem C3_comment_is_header_plus_review (w : World)
    (token owner repo key : string) (pr : pyval) (d review : string) :
  configured w token owner repo key ->
  result (get_latest_pr_number owner repo token) w = Returned pr ->
  result (get_pr_diff owner repo pr token) w = Returned (Some d) ->
  result (get_gemini_review d key) w = Returned (Some review) ->
  (forall url hdrs json timeout,
     In (HttpPost url hdrs json timeout) (trace main w) ->
     json = [("body", PStr (comment_header ++ review))] /\
     url = "https://api.github.com/repos/" ++ owner ++ "/" ++ repo
           ++ "/issues/" ++ py_str pr ++ "/comments") /\
  (truthy pr = true -> str_truthy review = true ->
   (exists hdrs,
      In (HttpPost ("https://api.github.com/repos/" ++ owner ++ "/" ++ repo
                    ++ "/issues/" ++ py_str pr ++ "/comments")
            hdrs [("body", PStr (comment_header ++ review))] 30)
         (trace main w)) /\
   stages (trace main w) = [Lookup; FetchDiff; Review; PostComment]).
Proof.
  intros cfg EL' ED' EG'. pose proof (main_pipeline _ _ _ _ _ cfg) as P.
  remember (result main w) as o. remember (trace main w) as t.
  split.
  - intros url hdrs json timeout Hin.
    destruct P; same_result.
    1-3: apply In_post_stages in Hin; revert Hin; stages_simpl;
      rewrite ?Td; cbn [app In stages stage_of]; intros Hin; in_cases.
    match type of Hin with
    | context [post_review_to_github owner repo ?n token ?c] =>
        destruct (post_review_to_github_trace owner repo n token c w)
          as (line & rest & E & Hr)
    end.
    rewrite !in_app_iff in Hin. destruct Hin as [Hin|[Hin|[Hin|[Hin|Hin]]]].
    1-4: apply In_post_stages in Hin; revert Hin; stages_simpl;
      rewrite ?Td, ?Hreport; cbn [In]; intros Hin; in_cases.
    rewrite E in Hin. apply In_post_inv in Hin; [|exact Hr].
    destruct Hin as (-> & _ & -> & _). split; reflexivity.
  - intros Tpr' Trv'.
    destruct P; same_result; try congruence.
    + cbn [opt_truthy] in Td.
      match goal with
      | EG : result (get_gemini_review ?x key) w = Returned (Some _) |- _ =>
          rewrite (get_gemini_review_guard x key w Td) in EG; discriminate EG
      end.
    + cbn [opt_truthy] in Tr. congruence.
    + split; [|stages_simpl; now rewrite Td, Hreport].
      match goal with
      | |- context [post_review_to_github owner repo ?n token ?c] =>
          destruct (post_review_to_github_trace owner repo n token c w)
            as (line & rest & E & Hr)
      end.
      eexists. rewrite !in_app_iff. do 4 right. rewrite E. right. left.
      reflexivity.
Qed.

(** C4 (amended).  Of the GET that the lookup issues: if it raises (network
    error), or is answered with a 4xx or 5xx status, the lookup returns
    [None]; if it is answered with another status and an empty JSON list,
    the lookup returns [None]; if it is answered with another status and a
    JSON list whose first entry has a [number] field, the lookup returns
    exactly that field. *)
Theorem C4_lookup_result (w : World) (owner repo token : string)
    (url : string) (hdrs : headers) (params : list (string * pyval)) (timeout : Z) :
  In (HttpGet url hdrs params timeout)
     (trace (get_latest_pr_number owner repo token) w) ->
  (forall kind msg resp,
     on_get w url hdrs params timeout = NetRaises kind msg resp ->
     result (get_latest_pr_number owner repo token) w = Returned PNone) /\
  (forall r,
     on_get w url hdrs params timeout = NetReturns r ->
     400 <= status_code r < 600 ->
     result (get_latest_pr_number owner repo token) w = Returned PNone) /\
  (forall r,
     on_get w url hdrs params timeout = NetReturns r ->
     ~ 400 <= status_code r < 600 ->
     json_body r = Json (PList []) ->
     result (get_latest_pr_number owner repo token) w = Returned PNone) /\
  (forall r items rest number,
     on_get w url hdrs params timeout = NetReturns r ->
     ~ 400 <= status_code r < 600 ->
     json_body r = Json (PList (PDict items :: rest)) ->
     dict_lookup items "number" = Some number ->
     result (get_latest_pr_number owner repo token) w = Returned number).
Proof.
  intros Hin.
  destruct (get_latest_pr_number_run owner repo token w)
    as [(line & rest0 & E & Hr) R].
  rewrite E in Hin. apply In_get_inv in Hin; [|exact Hr].
  destruct Hin as (-> & -> & -> & ->).
  repeat split.
  - intros kind msg resp Hw. rewrite R, Hw. reflexivity.
  - intros r Hw Hs. rewrite R, Hw.
    replace (error_status r) with true; [reflexivity|].
    unfold error_status. symmetry. apply andb_true_iff. split; lia.
  - intros r Hw Hs Hj. rewrite R, Hw, Hj.
    replace (error_status r) with false; [reflexivity|].
    unfold error_status. symmetry. apply andb_false_iff. lia.
  - intros r items rest number Hw Hs Hj Hn. rewrite R, Hw, Hj.
    replace (error_status r) with false.
    + cbn [truthy negb getitem_int seq_index]. unfold getitem_int, seq_index.
      cbn. now rewrite Hn.
    + unfold error_status. symmetry. apply andb_false_iff. lia.
Qed.

(** C5.  With the environment in place, the network calls of a run are an
    initial part of lookup, diff fetch, review, comment post, in that order.
    When the lookup returns [None] the lookup is the only call.  The diff is
    fetched only after a lookup that returned a (truthy) number, the model
    is called only after a diff fetch that returned a non-empty diff, and
    the comment is posted only after a review that returned a non-empty
    text. *)
Theorem C5_pipeline_short_circuits (w : World) (token owner repo key : string) :
  configured w token owner repo key ->
  (exists n, stages (trace main w)
             = firstn n [Lookup; FetchDiff; Review; PostComment]) /\
  (result (get_latest_pr_number owner repo token) w = Returned PNone ->
   stages (trace main w) = [Lookup]) /\
  (In FetchDiff (stages (trace main w)) ->
   exists pr,
     result (get_latest_pr_number owner repo token) w = Returned pr /\
     truthy pr = true) /\
  (In Review (stages (trace main w)) ->
   exists pr d,
     result (get_latest_pr_number owner repo token) w = Returned pr /\
     truthy pr = true /\
     result (get_pr_diff owner repo pr token) w = Returned (Some d) /\
     str_truthy d = true) /\
  (In PostComment (stages (trace main w)) ->
   exists pr d review,
     result (get_latest_pr_number owner repo token) w = Returned pr /\
     truthy pr = true /\
     result (get_pr_diff owner repo pr token) w = Returned (Some d) /\
     str_truthy d = true /\
     result (get_gemini_review d key) w = Returned (Some review) /\
     str_truthy review = true).
Proof.
  intros cfg. pose proof (main_pipeline _ _ _ _ _ cfg) as P.
  split; [eapply pipeline_stages; exact P|].
  remember (result main w) as o. remember (trace main w) as t.
  destruct P; stages_simpl; rewrite ?Td, ?Hreport; cbn [app In stages stage_of].
  all: repeat split; intros; in_cases; same_result; try reflexivity.
  all: try (cbn [truthy] in *; discriminate).
  all: repeat eexists; eassumption.
Qed.

(** C6 (the code departs from it).  The claim: no exception leaves a step
    function, whatever the endpoints answer.  The code: when the PR listing
    answers 200 with an entry that lacks the [number] field, the [KeyError]
    leaves [get_latest_pr_number]; when the comment endpoint answers 201
    with a JSON list, the [AttributeError] leaves [post_review_to_github]. *)
Theorem C6_exception_leaves_the_step :
  result (get_latest_pr_number "octo" "demo" "ghp_example") world_no_number
    = Raised (KeyError "'number'") /\
  result (post_review_to_github "octo" "demo" (PInt 42) "ghp_example" "LGTM")
    world_post_list
    = Raised (AttributeError "'list' object has no attribute 'get'").
Proof. split; reflexivity. Qed.

(** C7.  If one of the four environment values is missing or empty, [main]
    prints one diagnostic line and returns, having made no network call.
    Otherwise it goes on to the pipeline: the run starts with the PR lookup,
    whose GET is the first network call. *)
Theorem C7_environment_gate (w : World) :
  (missing (env_lookup w "GITHUB_TOKEN") \/ missing (env_lookup w "REPO_OWNER") \/
   missing (env_lookup w "REPO_NAME") \/ missing (env_lookup w "GEMINI_API_KEY") ->
   exists diagnostic, main w = (Returned tt, [Print diagnostic])) /\
  (forall token owner repo key,
     configured w token owner repo key ->
     (exists rest,
        trace main w =
          (trace (get_latest_pr_number owner repo token) w ++ rest)%list) /\
     hd_error (stages (trace main w)) = Some Lookup).
Proof.
  split.
  - intros H. eexists. apply main_unconfigured. simpl.
    destruct H as [H|[H|[H|H]]]; rewrite (missing_not_truthy _ H);
      now rewrite ?andb_false_r.
  - intros token owner repo key cfg.
    pose proof (main_pipeline _ _ _ _ _ cfg) as P.
    remember (result main w) as o. remember (trace main w) as t.
    destruct P; (split; [eauto using app_nil_r | stages_simpl; reflexivity]).
Qed.

(** C8.  Every GET that a step (and so [main]) issues carries the timeout
    15, and every POST the timeout 30.  When the call times out, the lookup
    and the diff fetch return [None], and the comment post prints its
    error line and returns. *)
Theorem C8_fixed_timeouts (w : World) (owner repo : string) (pr : pyval)
    (token comment : string) :
  Forall timeout_ok (trace (get_latest_pr_number owner repo token) w) /\
  Forall timeout_ok (trace (get_pr_diff owner repo pr token) w) /\
  Forall timeout_ok (trace (post_review_to_github owner repo pr token comment) w) /\
  Forall timeout_ok (trace main w) /\
  (forall url hdrs params timeout msg resp,
     In (HttpGet url hdrs params timeout)
        (trace (get_latest_pr_number owner repo token) w) ->
     on_get w url hdrs params timeout = NetRaises Timeout msg resp ->
     result (get_latest_pr_number owner repo token) w = Returned PNone) /\
  (forall url hdrs params timeout msg resp,
     In (HttpGet url hdrs params timeout)
        (trace (get_pr_diff owner repo pr token) w) ->
     on_get w url hdrs params timeout = NetRaises Timeout msg resp ->
     result (get_pr_diff owner repo pr token) w = Returned None) /\
  (forall url hdrs json timeout msg resp,
     In (HttpPost url hdrs json timeout)
        (trace (post_review_to_github owner repo pr token comment) w) ->
     on_post w url hdrs json timeout = NetRaises Timeout msg resp ->
     result (post_review_to_github owner repo pr token comment) w = Returned tt /\
     In (Print "❌ 錯誤：無法將留言發佈到 GitHub PR。")
        (trace (post_review_to_github owner repo pr token comment) w)).
Proof.
  split; [apply get_latest_pr_number_timeouts|].
  split; [apply get_pr_diff_timeouts|].
  split; [apply post_review_to_github_timeouts|].
  split; [|split; [|split]].
  - destruct (configured_or_not w) as [(tk & ow & rp & ky & cfg)|H].
    + eapply pipeline_timeouts, main_pipeline, cfg.
    + unfold trace. rewrite (main_unconfigured w H). repeat constructor.
  - intros url hdrs params timeout msg resp Hin Hw.
    destruct (get_latest_pr_number_run owner repo token w)
      as [(line & rest & E & Hr) R].
    rewrite E in Hin. apply In_get_inv in Hin; [|exact Hr].
    destruct Hin as (-> & -> & -> & ->). rewrite R, Hw. reflexivity.
  - intros url hdrs params timeout msg resp Hin Hw.
    destruct (get_pr_diff_run owner repo pr token w)
      as [(line & rest & E & Hr) R].
    rewrite E in Hin. apply In_get_inv in Hin; [|exact Hr].
    destruct Hin as (-> & -> & -> & ->). rewrite R, Hw. reflexivity.
  - intros url hdrs json timeout msg resp Hin Hw.
    destruct (post_review_to_github_trace owner repo pr token comment w)
      as (line & rest & E & Hr).
    destruct (post_review_to_github_run owner repo pr token comment w)
      as [F R].
    rewrite E in Hin. apply In_post_inv in Hin; [|exact Hr].
    destruct Hin as (-> & -> & -> & ->). split.
    + rewrite R, Hw. reflexivity.
    + destruct (F _ _ _ Hw) as (line' & rest' & E'). rewrite E'.
      right. right. left. reflexivity.
Qed.

(** C9 (the code departs from it).  The claim: the process always returns
    normally, with the success exit status.  The code: in the world of C6
    the [KeyError] of the lookup leaves [main] too, and the interpreter
    ends with status 1. *)
Theorem C9_uncaught_exception_ends_the_process :
  result main world_no_number = Raised (KeyError "'number'") /\
  exit_status (result main world_no_number) = 1.
Proof. split; reflexivity. Qed.

(** C10.  A diff fetch that returns the empty string ends the run exactly
    as one that returns [None]: [main] returns right after the fetch, and
    the model is not called, so the empty-diff guard of review generation
    is never met from [main].  A lookup that returns the number 0 ends the
    run exactly as one that returns [None]: the line that no PR number was
    obtained, and nothing else. *)
Theorem C10_falsy_results_halt (w : World) (token owner repo key : string) :
  configured w token owner repo key ->
  (forall pr pr_diff,
     result (get_latest_pr_number owner repo token) w = Returned pr ->
     truthy pr = true ->
     result (get_pr_diff owner repo pr token) w = Returned pr_diff ->
     pr_diff = Some "" \/ pr_diff = None ->
     main w = (Returned tt,
               (trace (get_latest_pr_number owner repo token) w
                ++ trace (get_pr_diff owner repo pr token) w)%list) /\
     stages (trace main w) = [Lookup; FetchDiff]) /\
  (forall pr,
     result (get_latest_pr_number owner repo token) w = Returned pr ->
     pr = PInt 0 \/ pr = PNone ->
     main w = (Returned tt,
               (trace (get_latest_pr_number owner repo token) w
                ++ [Print "無法繼續進行 Code Review，因為沒有獲取到 PR 編號。"])%list) /\
     stages (trace main w) = [Lookup]).
Proof.
  intros cfg. pose proof (main_pipeline _ _ _ _ _ cfg) as P.
  rewrite (run_eta main w).
  remember (result main w) as o. remember (trace main w) as t.
  split.
  - intros pr pr_diff EL' Tpr' ED' Hd.
    assert (opt_truthy pr_diff = false) as Td' by (now destruct Hd as [->| ->]).
    destruct P; same_result; try congruence.
    + split; [reflexivity | stages_simpl; reflexivity].
    + simpl in Td'. congruence.
    + simpl in Td'. congruence.
  - intros pr EL' Hpr.
    assert (truthy pr = false) as Tpr' by (now destruct Hpr as [->| ->]).
    destruct P; same_result; try congruence.
    split; [reflexivity | stages_simpl; reflexivity].
Qed.

(** ** Further properties of the steps *)

Lemma error_status_true (r : Response) :
  400 <= status_code r < 600 -> error_status r = true.
Proof. intros H. unfold error_status. apply andb_true_iff. split; lia. Qed.

Lemma error_status_false (r : Response) :
  ~ 400 <= status_code r < 600 -> error_status r = false.
Proof. intros H. unfold error_status. apply andb_false_iff. lia. Qed.

(** X1.  Of the GET that the diff fetch issues: answered with a status
    other than 4xx/5xx, the fetch returns the body text as it is (the empty
    text included); answered with a 4xx/5xx status, or when the call
    raises, it returns [None]. *)
Theorem X1_diff_is_the_body_text (w : World) (owner repo : string) (pr : pyval)
    (token : string) (url : string) (hdrs : headers)
    (params : list (string * pyval)) (timeout : Z) :
  In (HttpGet url hdrs params timeout)
     (trace (get_pr_diff owner repo pr token) w) ->
  (forall r,
     on_get w url hdrs params timeout = NetReturns r ->
     ~ 400 <= status_code r < 600 ->
     result (get_pr_diff owner repo pr token) w = Returned (Some (text r))) /\
  (forall r,
     on_get w url hdrs params timeout = NetReturns r ->
     400 <= status_code r < 600 ->
     result (get_pr_diff owner repo pr token) w = Returned None) /\
  (forall kind msg resp,
     on_get w url hdrs params timeout = NetRaises kind msg resp ->
     result (get_pr_diff owner repo pr token) w = Returned None).
Proof.
  intros Hin.
  destruct (get_pr_diff_run owner repo pr token w)
    as [(line & rest & E & Hr) R].
  rewrite E in Hin. apply In_get_inv in Hin; [|exact Hr].
  destruct Hin as (-> & -> & -> & ->).
  repeat split.
  - intros r Hw Hs. now rewrite R, Hw, (error_status_false r Hs).
  - intros r Hw Hs. now rewrite R, Hw, (error_status_true r Hs).
  - intros kind msg resp Hw. now rewrite R, Hw.
Qed.


(** X3.  On a non-empty diff, review generation returns the text of the
    model's response as it is when the response has one, and [None] when
    the model call raises or the response has no text. *)
Theorem X3_review_is_the_model_text (w : World) (diff api_key : string) :
  str_truthy diff = true ->
  (forall t,
     on_generate w api_key "gemini-2.5-pro" prompt = GenReturns (HasText t) ->
     result (get_gemini_review diff api_key) w = Returned (Some t)) /\
  (forall msg,
     on_generate w api_key "gemini-2.5-pro" prompt = GenReturns (NoText msg) ->
     result (get_gemini_review diff api_key) w = Returned None) /\
  (forall msg,
     on_generate w api_key "gemini-2.5-pro" prompt = GenRaises msg ->
     result (get_gemini_review diff api_key) w = Returned None).
Proof.
  intros Hd. unfold get_gemini_review. rewrite Hd. py_red.
  repeat split; intros; rewrite H; reflexivity.
Qed.

(** The request of a step, once found in its trace. *)
Ltac find_get Hin run :=
  let line := fresh "line" in
  let rest := fresh "rest" in
  let E := fresh "E" in
  let Hr := fresh "Hr" in
  destruct run as [(line & rest & E & Hr) _];
  rewrite E in Hin; apply In_get_inv in Hin; [|exact Hr];
  destruct Hin as (-> & -> & -> & ->); clear E Hr line rest.

(** X4.  When the GET of the lookup or of the diff fetch fails with a
    response at hand (a 4xx/5xx answer, or an exception that carries a
    response), the step prints its error line, then the status code and the
    body of that response, and returns [None]; when the exception carries
    no response, it prints the exception's message instead. *)
Theorem X4_failed_get_is_logged (w : World) (owner repo : string) (pr : pyval)
    (token : string) :
  (forall url hdrs params timeout,
     In (HttpGet url hdrs params timeout)
        (trace (get_latest_pr_number owner repo token) w) ->
     (forall r,
        failure_response (on_get w url hdrs params timeout) = Some r ->
        result (get_latest_pr_number owner repo token) w = Returned PNone /\
        exists line,
          trace (get_latest_pr_number owner repo token) w =
            [Print line; HttpGet url hdrs params timeout;
             Print "❌ 錯誤：無法從 GitHub 獲取 PR 列表。";
             Print ("   狀態碼: " ++ str_int (status_code r));
             Print ("   回應: " ++ text r)]) /\
     (forall kind msg,
        on_get w url hdrs params timeout = NetRaises kind msg None ->
        result (get_latest_pr_number owner repo token) w = Returned PNone /\
        exists line,
          trace (get_latest_pr_number owner repo token) w =
            [Print line; HttpGet url hdrs params timeout;
             Print "❌ 錯誤：無法從 GitHub 獲取 PR 列表。";
             Print ("   錯誤訊息: " ++ msg)])) /\
  (forall url hdrs params timeout,
     In (HttpGet url hdrs params timeout)
        (trace (get_pr_diff owner repo pr token) w) ->
     (forall r,
        failure_response (on_get w url hdrs params timeout) = Some r ->
        result (get_pr_diff owner repo pr token) w = Returned None /\
        exists line,
          trace (get_pr_diff owner repo pr token) w =
            [Print line; HttpGet url hdrs params timeout;
             Print "❌ 錯誤：無法從 GitHub 獲取 PR 內容。";
             Print ("   狀態碼: " ++ str_int (status_code r));
             Print ("   回應: " ++ text r)]) /\
     (forall kind msg,
        on_get w url hdrs params timeout = NetRaises kind msg None ->
        result (get_pr_diff owner repo pr token) w = Returned None /\
        exists line,
          trace (get_pr_diff owner repo pr token) w =
            [Print line; HttpGet url hdrs params timeout;
             Print "❌ 錯誤：無法從 GitHub 獲取 PR 內容。";
             Print ("   錯誤訊息: " ++ msg)])).
Proof.
  split; intros url hdrs params timeout Hin.
  - find_get Hin (get_latest_pr_number_run owner repo token w).
    unfold get_latest_pr_number, failure_response, error_status.
    split; [intros r H | intros kind msg H; py_red; rewrite H].
    + revert H. py_run; intros H; try discriminate H;
        injection H as <-; eauto.
    + py_run; eauto.
  - find_get Hin (get_pr_diff_run owner repo pr token w).
    unfold get_pr_diff, failure_response, error_status.
    split; [intros r H | intros kind msg H; py_red; rewrite H].
    + revert H. py_run; intros H; try discriminate H;
        injection H as <-; eauto.
    + py_run; eauto.
Qed.

Ltac find_post Hin tr :=
  let line := fresh "line" in
  let rest := fresh "rest" in
  let E := fresh "E" in
  let Hr := fresh "Hr" in
  destruct tr as (line & rest & E & Hr);
  rewrite E in Hin; apply In_post_inv in Hin; [|exact Hr];
  destruct Hin as (-> & -> & -> & ->); clear E Hr line rest.

(** Take a membership in an explicit list of events apart. *)
Ltac in_events H :=
  cbn [In] in H;
  repeat match type of H with
         | _ \/ _ => destruct H as [H|H]
         end;
  try (exfalso; exact H); try (cbn in H; discriminate H).

(** X5.  The comment post prints the hint about the token's write
    permission exactly when the request failed with a response of status
    403 at hand; on success and on every other failure the hint is not
    printed. *)
Theorem X5_permission_hint_on_403 (w : World) (owner repo : string) (pr : pyval)
    (token comment : string) (url : string) (hdrs : headers)
    (json : list (string * pyval)) (timeout : Z) :
  In (HttpPost url hdrs json timeout)
     (trace (post_review_to_github owner repo pr token comment) w) ->
  (In (Print "   提示：請檢查您的 GITHUB_TOKEN 是否具有 'pull-requests:write' 或 'issues:write' 權限。")
      (trace (post_review_to_github owner repo pr token comment) w)
   <->
   exists r,
     failure_response (on_post w url hdrs json timeout) = Some r /\
     status_code r = 403).
Proof.
  intros Hin.
  find_post Hin (post_review_to_github_trace owner repo pr token comment w).
  unfold post_review_to_github, failure_response, error_status.
  py_run.
  all: split; [intros H; in_events H | intros (r0 & H & Hs)].
  all: try discriminate H.
  all: try (injection H as <-).
  all: try match goal with
           | Hb : (status_code ?r =? 403) = false, Hs : status_code ?r = 403 |- _ =>
               apply Z.eqb_neq in Hb; contradiction
           end.
  all: try (eexists; split; [reflexivity | now apply Z.eqb_eq]).
  all: cbn [In]; tauto.
Qed.

(** X6.  When the comment endpoint answers with a status other than
    4xx/5xx and a JSON object, the post returns normally whether or not the
    object has an [html_url] entry: it prints the entry when there is one,
    and [None] in its place when there is none. *)
Theorem X6_missing_html_url_is_tolerated (w : World) (owner repo : string)
    (pr : pyval) (token comment : string) (url : string) (hdrs : headers)
    (json : list (string * pyval)) (timeout : Z) (r : Response)
    (items : list (string * pyval)) :
  In (HttpPost url hdrs json timeout)
     (trace (post_review_to_github owner repo pr token comment) w) ->
  on_post w url hdrs json timeout = NetReturns r ->
  ~ 400 <= status_code r < 600 ->
  json_body r = Json (PDict items) ->
  result (post_review_to_github owner repo pr token comment) w = Returned tt /\
  (forall v, dict_lookup items "html_url" = Some v ->
     In (Print ("   留言網址: " ++ py_str v))
        (trace (post_review_to_github owner repo pr token comment) w)) /\
  (dict_lookup items "html_url" = None ->
     In (Print "   留言網址: None")
        (trace (post_review_to_github owner repo pr token comment) w)).
Proof.
  intros Hin Hw Hs Hj.
  find_post Hin (post_review_to_github_trace owner repo pr token comment w).
  apply error_status_false in Hs. unfold error_status in Hs.
  unfold post_review_to_github. py_red. rewrite Hw. py_red.
  rewrite Hs. py_red. rewrite Hj. py_red.
  destruct (dict_lookup items "html_url") as [v|]; py_red.
  - split; [reflexivity|]. split; [|discriminate].
    intros v' [= <-]. cbn [In]. tauto.
  - split; [reflexivity|]. split; [discriminate|].
    intros _. cbn [In]. tauto.
Qed.






(** X8.  When the listing is answered with a status other than 4xx/5xx and
    a JSON body that is falsy (an empty list, but also null, an empty
    object, an empty string, 0 or false), the lookup prints that no open
    pull request was found and returns [None]. *)
Theorem X8_falsy_listing_means_no_pr (w : World) (owner repo token : string)
    (url : string) (hdrs : headers) (params : list (string * pyval))
    (timeout : Z) (r : Response) (body : pyval) :
  In (HttpGet url hdrs params timeout)
     (trace (get_latest_pr_number owner repo token) w) ->
  on_get w url hdrs params timeout = NetReturns r ->
  ~ 400 <= status_code r < 600 ->
  json_body r = Json body ->
  truthy body = false ->
  result (get_latest_pr_number owner repo token) w = Returned PNone /\
  exists line,
    trace (get_latest_pr_number owner repo token) w =
      [Print line; HttpGet url hdrs params timeout;
       Print "🟡 在這個倉庫中找不到任何開啟的 Pull Request。"].
Proof.
  intros Hin Hw Hs Hj Hb.
  find_get Hin (get_latest_pr_number_run owner repo token w).
  apply error_status_false in Hs. unfold error_status in Hs.
  unfold get_latest_pr_number. py_red. rewrite Hw. py_red.
  rewrite Hs. py_red. rewrite Hj. py_red. rewrite Hb. py_red. eauto.
Qed.

(** ** Further properties of the orchestrator *)

Lemma In_get_stages u h p t (tr : list event) :
  In (HttpGet u h p t) tr -> In Lookup (stages tr) \/ In FetchDiff (stages tr).
Proof.
  intros H.
  destruct (stage_of (HttpGet u h p t)) as [s|] eqn:E.
  - assert (In s (stages tr)) as Hs by (apply In_stages; eauto).
    revert E. cbn [stage_of].
    destruct (header "Accept" h) as [a|]; [destruct (String.eqb a _)|];
      intros [= <-]; auto.
  - apply stage_of_None in E. destruct E as [line E]. discriminate E.
Qed.

Lemma In_generate_stages k m p (tr : list event) :
  In (Generate k m p) tr -> In Review (stages tr).
Proof. intros H. apply In_stages. eauto. Qed.

Lemma authorized_of_stages (token : string) (t : list event) :
  (forall s, In s (stages t) -> s = Review) -> Forall (authorized token) t.
Proof.
  intros H. apply Forall_forall. intros e He.
  destruct e as [line|u h p tm|u h j tm|k m p]; cbn [authorized]; trivial.
  - destruct (In_get_stages _ _ _ _ _ He) as [Hs|Hs];
      apply H in Hs; discriminate Hs.
  - apply In_post_stages, H in He. discriminate He.
Qed.

Lemma pipeline_authorized w token owner repo key o t :
  pipeline w token owner repo key o t -> Forall (authorized token) t.
Proof.
  assert (forall tr : list event, stages tr = [] -> Forall (authorized token) tr)
    as quiet by (intros tr E; apply authorized_of_stages; rewrite E; intros s []).
  assert (Forall (authorized token)
            (trace (get_latest_pr_number owner repo token) w)) as HL.
  { destruct (get_latest_pr_number_run owner repo token w)
      as [(line & rest & -> & Hr) _].
    repeat constructor. now apply quiet. }
  assert (forall pr, Forall (authorized token)
                       (trace (get_pr_diff owner repo pr token) w)) as HD.
  { intros pr. destruct (get_pr_diff_run owner repo pr token w)
      as [(line & rest & -> & Hr) _].
    repeat constructor. now apply quiet. }
  assert (forall d, Forall (authorized token)
                      (trace (get_gemini_review d key) w)) as HG.
  { intros d. apply authorized_of_stages. rewrite get_gemini_review_stages.
    destruct (str_truthy d); cbn [In]; intuition. }
  assert (forall pr c, Forall (authorized token)
                         (trace (post_review_to_github owner repo pr token c) w))
    as HP.
  { intros pr c. destruct (post_review_to_github_trace owner repo pr token c w)
      as (line & rest & -> & Hr).
    repeat constructor. now apply quiet. }
  intros P. destruct P; rewrite ?Forall_app; repeat split; auto.
Qed.

(** X9.  In a configured run every request to GitHub, whichever step sends
    it, carries the token read from GITHUB_TOKEN as bearer authorization
    and the API version header 2022-11-28. *)
Theorem X9_every_request_is_authorized (w : World)
    (token owner repo key : string) :
  configured w token owner repo key ->
  Forall (authorized token) (trace main w).
Proof.
  intros cfg. eapply pipeline_authorized, main_pipeline, cfg.
Qed.

(** X10.  The GETs of a configured run are the listing of the repository
    named by REPO_OWNER and REPO_NAME, asked for the newest open pull
    request only (state open, sorted by creation, descending, one per page,
    page 1), and the pull request whose number the lookup returned. *)
Theorem X10_gets_of_a_run (w : World) (token owner repo key : string)
    (url : string) (hdrs : headers) (params : list (string * pyval))
    (timeout : Z) :
  configured w token owner repo key ->
  In (HttpGet url hdrs params timeout) (trace main w) ->
  (url = "https://api.github.com/repos/" ++ owner ++ "/" ++ repo ++ "/pulls" /\
   params = [("state", PStr "open"); ("sort", PStr "created");
             ("direction", PStr "desc"); ("per_page", PInt 1);
             ("page", PInt 1)]) \/
  (exists pr,
     result (get_latest_pr_number owner repo token) w = Returned pr /\
     truthy pr = true /\
     url = "https://api.github.com/repos/" ++ owner ++ "/" ++ repo
           ++ "/pulls/" ++ py_str pr /\
     params = []).
Proof.
  intros cfg Hin. pose proof (main_pipeline _ _ _ _ _ cfg) as P.
  remember (result main w) as o. remember (trace main w) as t.
  assert (forall tr : list event,
            In (HttpGet url hdrs params timeout) tr ->
            (forall s, In s (stages tr) -> s = Review \/ s = PostComment) ->
            False) as quiet.
  { intros tr H Hs. destruct (In_get_stages _ _ _ _ _ H) as [H'|H'];
      apply Hs in H'; destruct H'; discriminate. }
  assert (In (HttpGet url hdrs params timeout)
             (trace (get_latest_pr_number owner repo token) w) ->
          url = "https://api.github.com/repos/" ++ owner ++ "/" ++ repo ++ "/pulls" /\
          params = [("state", PStr "open"); ("sort", PStr "created");
                    ("direction", PStr "desc"); ("per_page", PInt 1);
                    ("page", PInt 1)]) as HL.
  { intros H. find_get H (get_latest_pr_number_run owner repo token w). auto. }
  assert (forall pr,
            In (HttpGet url hdrs params timeout)
               (trace (get_pr_diff owner repo pr token) w) ->
            url = "https://api.github.com/repos/" ++ owner ++ "/" ++ repo
                  ++ "/pulls/" ++ py_str pr /\ params = []) as HD.
  { intros pr H. find_get H (get_pr_diff_run owner repo pr token w). auto. }
  destruct P; rewrite ?in_app_iff in Hin;
    repeat match type of Hin with _ \/ _ => destruct Hin as [Hin|Hin] end.
  all: try (left; now apply HL).
  all: try (right; exists pr; destruct (HD _ Hin); now auto).
  all: exfalso; apply (quiet _ Hin); stages_simpl; rewrite ?Td, ?Hreport;
    cbn [stages stage_of In]; intros s Hs; in_cases; subst; auto.
Qed.

(** A POST in a run of [main] is the POST of the comment step, at the end
    of a run in which every earlier step succeeded. *)
Lemma main_post_inv (w : World) (token owner repo key : string)
    u h j t :
  configured w token owner repo key ->
  In (HttpPost u h j t) (trace main w) ->
  exists pr d review report,
    result (get_gemini_review d key) w = Returned (Some review) /\
    stages report = [] /\
    In (Print review) report /\
    result main w
    = result (post_review_to_github owner repo pr token
                (comment_header ++ review)) w /\
    trace main w
    = (trace (get_latest_pr_number owner repo token) w
       ++ trace (get_pr_diff owner repo pr token) w
       ++ trace (get_gemini_review d key) w
       ++ report
       ++ trace (post_review_to_github owner repo pr token
                   (comment_header ++ review)) w)%list /\
    In (HttpPost u h j t)
       (trace (post_review_to_github owner repo pr token
                 (comment_header ++ review)) w).
Proof.
  intros cfg Hin. pose proof (main_pipeline _ _ _ _ _ cfg) as P.
  remember (result main w) as o. remember (trace main w) as tr.
  destruct P.
  1-4: apply In_post_stages in Hin; revert Hin; stages_simpl;
    rewrite ?Td; cbn [app In stages stage_of]; intros Hin; in_cases.
  exists pr, d, review, report. repeat split; try assumption.
  rewrite !in_app_iff in Hin. destruct Hin as [Hin|[Hin|[Hin|[Hin|Hin]]]];
    [| | | |exact Hin].
  all: apply In_post_stages in Hin; revert Hin; stages_simpl;
    rewrite ?Td, ?Hreport; cbn [In]; intros Hin; in_cases.
Qed.

(** X11.  Whenever [main] posts a comment, it has printed the review text
    on the console before: the run holds the console line with the review,
    later the POST, and the POST carries the header followed by that same
    text. *)
Theorem X11_review_is_printed_before_the_post (w : World)
    (token owner repo key : string) (url : string) (hdrs : headers)
    (json : list (string * pyval)) (timeout : Z) :
  configured w token owner repo key ->
  In (HttpPost url hdrs json timeout) (trace main w) ->
  exists review before between after,
    trace main w
    = (before ++ Print review :: between
       ++ HttpPost url hdrs json timeout :: after)%list /\
    json = [("body", PStr (comment_header ++ review))].
Proof.
  intros cfg Hin.
  destruct (main_post_inv _ _ _ _ _ _ _ _ _ cfg Hin)
    as (pr & d & review & report & _ & _ & Hp & _ & -> & HinP).
  destruct (post_review_to_github_trace owner repo pr token
              (comment_header ++ review) w) as (line & rest & E & Hr).
  rewrite E in HinP |- *. apply In_post_inv in HinP; [|exact Hr].
  destruct HinP as (-> & -> & -> & ->).
  apply in_split in Hp. destruct Hp as (r1 & r2 & ->).
  exists review,
    (trace (get_latest_pr_number owner repo token) w
     ++ trace (get_pr_diff owner repo pr token) w
     ++ trace (get_gemini_review d key) w ++ r1)%list,
    (r2 ++ [Print line])%list, rest.
  split; [|reflexivity].
  repeat (rewrite <- app_assoc; cbn [app]). cbn [app]. reflexivity.
Qed.

(** A failed request of the comment step: error line, normal return. *)
Lemma post_review_to_github_failed (w : World) (owner repo : string) (pr : pyval)
    (token comment : string) u h j t :
  In (HttpPost u h j t)
     (trace (post_review_to_github owner repo pr token comment) w) ->
  (exists kind msg resp, on_post w u h j t = NetRaises kind msg resp) \/
  (exists r, on_post w u h j t = NetReturns r /\ 400 <= status_code r < 600) ->
  result (post_review_to_github owner repo pr token comment) w = Returned tt /\
  In (Print "❌ 錯誤：無法將留言發佈到 GitHub PR。")
     (trace (post_review_to_github owner repo pr token comment) w).
Proof.
  intros Hin Hf.
  find_post Hin (post_review_to_github_trace owner repo pr token comment w).
  unfold post_review_to_github. py_red.
  destruct Hf as [(kind & msg & resp & Hw)|(r & Hw & Hs)]; rewrite Hw; py_red.
  - py_run; (split; [reflexivity | cbn [In]; tauto]).
  - apply error_status_true in Hs. unfold error_status in Hs. rewrite Hs.
    py_run; (split; [reflexivity | cbn [In]; tauto]).
Qed.

(** X12.  A comment post that fails (the call raises, or is answered with a
    4xx/5xx status) does not fail the run: [main] prints the error line of
    the post and still returns normally. *)
Theorem X12_failed_post_does_not_fail_the_run (w : World)
    (token owner repo key : string) (url : string) (hdrs : headers)
    (json : list (string * pyval)) (timeout : Z) :
  configured w token owner repo key ->
  In (HttpPost url hdrs json timeout) (trace main w) ->
  (exists kind msg resp,
     on_post w url hdrs json timeout = NetRaises kind msg resp) \/
  (exists r, on_post w url hdrs json timeout = NetReturns r /\
             400 <= status_code r < 600) ->
  result main w = Returned tt /\
  In (Print "❌ 錯誤：無法將留言發佈到 GitHub PR。") (trace main w).
Proof.
  intros cfg Hin Hf.
  destruct (main_post_inv _ _ _ _ _ _ _ _ _ cfg Hin)
    as (pr & d & review & report & _ & _ & _ & -> & -> & HinP).
  destruct (post_review_to_github_failed _ _ _ _ _ _ _ _ _ _ HinP Hf)
    as [HR HI].
  split; [exact HR|]. rewrite !in_app_iff. auto.
Qed.

(** X13.  What review generation prints on a non-empty diff.  When the
    model call raises, the error line carries the exception's message.
    When the call returns a response without text, the success line is
    printed first and the error line, with the message of the failed text
    access, after it.  When the response has text, the success line is the
    last line. *)
Theorem X13_review_log (w : World) (diff api_key : string) :
  str_truthy diff = true ->
  (forall msg,
     on_generate w api_key "gemini-2.5-pro" prompt = GenRaises msg ->
     trace (get_gemini_review diff api_key) w =
       [Print "正在將 diff 傳送給 Gemini 2.5 Pro 進行 Code Review...";
        Generate api_key "gemini-2.5-pro" prompt;
        Print ("❌ 錯誤：呼叫 Gemini API 時發生問題: " ++ msg)]) /\
  (forall msg,
     on_generate w api_key "gemini-2.5-pro" prompt = GenReturns (NoText msg) ->
     trace (get_gemini_review diff api_key) w =
       [Print "正在將 diff 傳送給 Gemini 2.5 Pro 進行 Code Review...";
        Generate api_key "gemini-2.5-pro" prompt;
        Print "✅ 成功收到 Gemini 的回覆！";
        Print ("❌ 錯誤：呼叫 Gemini API 時發生問題: " ++ msg)]) /\
  (forall t,
     on_generate w api_key "gemini-2.5-pro" prompt = GenReturns (HasText t) ->
     trace (get_gemini_review diff api_key) w =
       [Print "正在將 diff 傳送給 Gemini 2.5 Pro 進行 Code Review...";
        Generate api_key "gemini-2.5-pro" prompt;
        Print "✅ 成功收到 Gemini 的回覆！"]).
Proof.
  intros Hd. unfold get_gemini_review. rewrite Hd. py_red.
  repeat split; intros; rewrite H; reflexivity.
Qed.

(** X14.  Every model call of a configured run goes to the model
    gemini-2.5-pro with the key read from GEMINI_API_KEY and the fixed
    prompt text. *)
Theorem X14_model_calls_of_a_run (w : World) (token owner repo key : string)
    (api_key model text : string) :
  configured w token owner repo key ->
  In (Generate api_key model text) (trace main w) ->
  api_key = key /\ model = "gemini-2.5-pro" /\ text = prompt.
Proof.
  intros cfg Hin. pose proof (main_pipeline _ _ _ _ _ cfg) as P.
  remember (result main w) as o. remember (trace main w) as t.
  assert (forall d,
            In (Generate api_key model text)
               (trace (get_gemini_review d key) w) ->
            api_key = key /\ model = "gemini-2.5-pro" /\ text = prompt) as HG.
  { intros d H. destruct (str_truthy d) eqn:Td.
    - destruct (get_gemini_review_trace d key w Td) as (rest & E & Hr).
      rewrite E in H. destruct H as [H|[H|H]]; [discriminate H| |].
      + injection H as <- <- <-. auto.
      + destruct (stages_nil_prints _ Hr _ H). discriminate.
    - apply In_generate_stages in H. rewrite get_gemini_review_stages, Td in H.
      destruct H. }
  destruct P; rewrite ?in_app_iff in Hin;
    repeat match type of Hin with _ \/ _ => destruct Hin as [Hin|Hin] end.
  all: try (now apply (HG _ Hin)).
  all: exfalso; apply In_generate_stages in Hin; revert Hin; stages_simpl;
    rewrite ?Hreport; cbn [stages stage_of In]; intros Hin; in_cases.
Qed.

(** X15.  The run in which every step succeeds, in full: the traces of
    lookup, diff fetch and review generation, then on the console a rule
    with the report title, the repository, the pull request number, the
    review text and a closing rule, then the comment post; the outcome of
    [main] is that of the post. *)
Theorem X15_successful_run (w : World) (token owner repo key : string)
    (pr : pyval) (d review : string) :
  configured w token owner repo key ->
  result (get_latest_pr_number owner repo token) w = Returned pr ->
  truthy pr = true ->
  result (get_pr_diff owner repo pr token) w = Returned (Some d) ->
  str_truthy d = true ->
  result (get_gemini_review d key) w = Returned (Some review) ->
  str_truthy review = true ->
  main w =
  (result (post_review_to_github owner repo pr token
             (comment_header ++ review)) w,
   (trace (get_latest_pr_number owner repo token) w
    ++ trace (get_pr_diff owner repo pr token) w
    ++ trace (get_gemini_review d key) w
    ++ [Print (LF ++ str_repeat "=" 25 ++ " Gemini Code Review 報告 "
               ++ str_repeat "=" 25);
        Print ("Repository: " ++ owner ++ "/" ++ repo);
        Print ("Pull Request: #" ++ py_str pr ++ LF);
        Print review;
        Print (str_repeat "=" 73 ++ LF)]
    ++ trace (post_review_to_github owner repo pr token
                (comment_header ++ review)) w)%list).
Proof.
  intros (Ht & Ho & Hr & Hk & Tt & To & Tr & Tk) EL Tpr ED Td EG Trv.
  unfold main. cbv beta iota delta [bind os_getenv].
  rewrite Ht, Ho, Hr, Hk. cbn [map py_all forallb opt_truthy].
  rewrite Tt, To, Tr, Tk. cbn [andb negb].
  rewrite (run_eta (get_latest_pr_number owner repo token) w), EL.
  cbn [fst snd]. rewrite Tpr. cbn [negb].
  rewrite (run_eta (get_pr_diff owner repo pr token) w), ED.
  cbn [fst snd]. rewrite Td.
  rewrite (run_eta (get_gemini_review d key) w), EG.
  cbn [fst snd]. rewrite Trv.
  rewrite (run_eta (post_review_to_github owner repo pr token
                      (comment_header ++ review)) w).
  reflexivity.
Qed.

End CodeReviewer.

(** ** The claims on sample worlds *)

Lemma sample_configured (pulls diff : net_result) (gen : gen_result)
    (post : net_result) :
  configured (sample_world sample_env pulls diff gen post)
    "ghp_example" "octo" "demo" "ai_key".
Proof. repeat split; reflexivity. Defined.

(** C3 on PR #42 with the review LGTM: the run posts the header followed by
    LGTM, as the last of its four calls. *)
Lemma C3_comment_witness :
  (exists hdrs,
     In (HttpPost "https://api.github.com/repos/octo/demo/issues/42/comments"
           hdrs [("body", PStr (comment_header ++ "LGTM"))] 30)
        (trace (main sample_repr) world_lgtm)) /\
  stages (trace (main sample_repr) world_lgtm)
  = [Lookup; FetchDiff; Review; PostComment].
Proof.
  apply (C3_comment_is_header_plus_review sample_repr world_lgtm
           "ghp_example" "octo" "demo" "ai_key" (PInt 42) sample_diff "LGTM");
    try reflexivity.
  apply sample_configured.
Defined.

(** C4, as the claim states it, fails: the listing is answered with status
    300, which is not a 2xx status, and the lookup returns the number 7 of
    the first entry, not [None]. *)
Lemma C4_status_300_counterexample :
  exists url hdrs params timeout r,
    In (HttpGet url hdrs params timeout)
       (trace (get_latest_pr_number sample_repr "octo" "demo" "ghp_example")
          world_300) /\
    on_get world_300 url hdrs params timeout = NetReturns r /\
    ~ 200 <= status_code r < 300 /\
    result (get_latest_pr_number sample_repr "octo" "demo" "ghp_example")
      world_300 = Returned (PInt 7) /\
    result (get_latest_pr_number sample_repr "octo" "demo" "ghp_example")
      world_300 <> Returned PNone.
Proof.
  do 5 eexists. split; [right; left; reflexivity|].
  split; [reflexivity|]. split; [simpl; lia|].
  split; [reflexivity | discriminate].
Qed.

(** C4 (amended) on PR #42: the lookup returns 42. *)
Lemma C4_lookup_witness :
  result (get_latest_pr_number sample_repr "octo" "demo" "ghp_example") world_lgtm
  = Returned (PInt 42).
Proof.
  eapply (C4_lookup_result sample_repr world_lgtm "octo" "demo" "ghp_example").
  - right; left; reflexivity.
  - reflexivity.
  - simpl; lia.
  - reflexivity.
  - reflexivity.
Defined.

(** C5 on the full run, and on a repository without open pull request. *)
Lemma C5_short_circuit_witness :
  (exists n, stages (trace (main sample_repr) world_lgtm)
             = firstn n [Lookup; FetchDiff; Review; PostComment]) /\
  stages (trace (main sample_repr) world_no_pr) = [Lookup].
Proof.
  split.
  - apply (C5_pipeline_short_circuits sample_repr world_lgtm
             "ghp_example" "octo" "demo" "ai_key").
    apply sample_configured.
  - apply (C5_pipeline_short_circuits sample_repr world_no_pr
             "ghp_example" "octo" "demo" "ai_key");
      [apply sample_configured | reflexivity].
Defined.

(** C7 without the repository name, and with all four values. *)
Lemma C7_gate_witness :
  (exists diagnostic,
     main sample_repr world_no_repo = (Returned tt, [Print diagnostic])) /\
  hd_error (stages (trace (main sample_repr) world_lgtm)) = Some Lookup.
Proof.
  split.
  - apply (C7_environment_gate sample_repr world_no_repo).
    right; right; left; left; reflexivity.
  - apply (proj2 (C7_environment_gate sample_repr world_lgtm)
             "ghp_example" "octo" "demo" "ai_key").
    apply sample_configured.
Defined.

(** C8 when every HTTP call times out. *)
Lemma C8_timeout_witness :
  result (get_latest_pr_number sample_repr "octo" "demo" "ghp_example")
    world_timeout = Returned PNone /\
  result (get_pr_diff sample_repr "octo" "demo" (PInt 42) "ghp_example")
    world_timeout = Returned None /\
  result (post_review_to_github sample_repr "octo" "demo" (PInt 42)
            "ghp_example" "LGTM") world_timeout = Returned tt.
Proof.
  pose proof (C8_fixed_timeouts sample_repr world_timeout "octo" "demo" (PInt 42)
                "ghp_example" "LGTM") as (_ & _ & _ & _ & HL & HD & HP).
  split; [|split].
  - eapply HL; [right; left; reflexivity | reflexivity].
  - eapply HD; [right; left; reflexivity | reflexivity].
  - eapply HP; [right; left; reflexivity | reflexivity].
Defined.

(** C10 on an empty diff, and on a pull request numbered 0. *)
Lemma C10_halt_witness :
  stages (trace (main sample_repr) world_empty_diff) = [Lookup; FetchDiff] /\
  stages (trace (main sample_repr) world_pr_zero) = [Lookup].
Proof.
  split.
  - eapply (C10_falsy_results_halt sample_repr world_empty_diff
              "ghp_example" "octo" "demo" "ai_key").
    + apply sample_configured.
    + reflexivity.
    + reflexivity.
    + reflexivity.
    + left; reflexivity.
  - eapply (C10_falsy_results_halt sample_repr world_pr_zero
              "ghp_example" "octo" "demo" "ai_key").
    + apply sample_configured.
    + reflexivity.
    + left; reflexivity.
Defined.

(** ** The further properties on sample worlds *)

(** Find an event in an explicit trace. *)
Ltac find_event := repeat (first [left; reflexivity | right]).

(** X1 on PR #42: the fetch returns the body of the answer. *)
Lemma X1_diff_witness :
  result (get_pr_diff sample_repr "octo" "demo" (PInt 42) "ghp_example") world_lgtm
  = Returned (Some sample_diff).
Proof.
  edestruct (X1_diff_is_the_body_text sample_repr world_lgtm
               "octo" "demo" (PInt 42) "ghp_example") as (H & _).
  - right; left; reflexivity.
  - refine (H (mkResponse 200 sample_diff
                 (NotJson "Expecting value: line 1 column 1 (char 0)")) eq_refl _).
    simpl. lia.
Defined.

(** X3 when the model answers LGTM. *)
Lemma X3_review_witness :
  result (get_gemini_review sample_diff "ai_key") world_lgtm
  = Returned (Some "LGTM").
Proof.
  apply (X3_review_is_the_model_text world_lgtm sample_diff "ai_key" eq_refl).
  reflexivity.
Defined.

(** X4 when both GETs are answered with 404. *)
Lemma X4_not_found_witness :
  result (get_latest_pr_number sample_repr "octo" "demo" "ghp_example")
    world_not_found = Returned PNone /\
  result (get_pr_diff sample_repr "octo" "demo" (PInt 42) "ghp_example")
    world_not_found = Returned None.
Proof.
  destruct (X4_failed_get_is_logged sample_repr world_not_found
              "octo" "demo" (PInt 42) "ghp_example") as (HL & HD).
  split.
  - edestruct HL as (H & _); [right; left; reflexivity|].
    apply (H (mkResponse 404 "Not Found"
                (Json (PDict [("message", PStr "Not Found")])))).
    reflexivity.
  - edestruct HD as (H & _); [right; left; reflexivity|].
    apply (H (mkResponse 404 "Not Found"
                (Json (PDict [("message", PStr "Not Found")])))).
    reflexivity.
Defined.

(** X5 when the comment endpoint answers 403. *)
Lemma X5_forbidden_witness :
  In (Print "   提示：請檢查您的 GITHUB_TOKEN 是否具有 'pull-requests:write' 或 'issues:write' 權限。")
     (trace (post_review_to_github sample_repr "octo" "demo" (PInt 42)
               "ghp_example" "LGTM") world_forbidden).
Proof.
  eapply (fun url hdrs json timeout Hin =>
            proj2 (X5_permission_hint_on_403 sample_repr world_forbidden
                     "octo" "demo" (PInt 42) "ghp_example" "LGTM"
                     url hdrs json timeout Hin)).
  - right; left; reflexivity.
  - eexists. split; reflexivity.
Defined.

(** X6 when the answer of the comment endpoint has no [html_url]. *)
Lemma X6_no_html_url_witness :
  result (post_review_to_github sample_repr "octo" "demo" (PInt 42)
            "ghp_example" "LGTM") world_no_html_url = Returned tt /\
  In (Print "   留言網址: None")
     (trace (post_review_to_github sample_repr "octo" "demo" (PInt 42)
               "ghp_example" "LGTM") world_no_html_url).
Proof.
  edestruct (X6_missing_html_url_is_tolerated sample_repr world_no_html_url
               "octo" "demo" (PInt 42) "ghp_example" "LGTM") as (H1 & _ & H3).
  - right; left; reflexivity.
  - reflexivity.
  - simpl. lia.
  - reflexivity.
  - split; [exact H1 | apply H3; reflexivity].
Defined.


(** X8 when the listing answers 200 with null. *)
Lemma X8_null_body_witness :
  result (get_latest_pr_number sample_repr "octo" "demo" "ghp_example")
    world_null_body = Returned PNone.
Proof.
  eapply (X8_falsy_listing_means_no_pr sample_repr world_null_body
            "octo" "demo" "ghp_example").
  - right; left; reflexivity.
  - reflexivity.
  - simpl. lia.
  - reflexivity.
  - reflexivity.
Defined.

(** X9 on the full run. *)
Lemma X9_authorized_witness :
  Forall (authorized "ghp_example") (trace (main sample_repr) world_lgtm).
Proof.
  apply (X9_every_request_is_authorized sample_repr world_lgtm
           "ghp_example" "octo" "demo" "ai_key").
  apply sample_configured.
Defined.

(** X10 on the full run: the second GET asks for pull request 42. *)
Lemma X10_gets_witness :
  exists pr,
    result (get_latest_pr_number sample_repr "octo" "demo" "ghp_example")
      world_lgtm = Returned pr /\
    truthy pr = true /\
    "https://api.github.com/repos/octo/demo/pulls/42"
    = "https://api.github.com/repos/" ++ "octo" ++ "/" ++ "demo"
      ++ "/pulls/" ++ py_str sample_repr pr /\
    @nil (string * pyval) = [].
Proof.
  edestruct (X10_gets_of_a_run sample_repr world_lgtm
               "ghp_example" "octo" "demo" "ai_key"
               "https://api.github.com/repos/octo/demo/pulls/42")
    as [(H & _)|H].
  - apply sample_configured.
  - find_event.
  - discriminate H.
  - exact H.
Defined.

(** X11 on the full run. *)
Lemma X11_console_witness :
  exists url hdrs json timeout review before between after,
    trace (main sample_repr) world_lgtm
    = (before ++ Print review :: between
       ++ HttpPost url hdrs json timeout :: after)%list /\
    json = [("body", PStr (comment_header ++ review))].
Proof.
  do 4 eexists.
  eapply (X11_review_is_printed_before_the_post sample_repr world_lgtm
            "ghp_example" "octo" "demo" "ai_key").
  - apply sample_configured.
  - find_event.
Defined.

(** X12 when the comment endpoint answers 403. *)
Lemma X12_forbidden_run_witness :
  result (main sample_repr) world_forbidden = Returned tt /\
  In (Print "❌ 錯誤：無法將留言發佈到 GitHub PR。")
     (trace (main sample_repr) world_forbidden).
Proof.
  eapply (X12_failed_post_does_not_fail_the_run sample_repr world_forbidden
            "ghp_example" "octo" "demo" "ai_key").
  - apply sample_configured.
  - find_event.
  - right. eexists. split; [reflexivity | simpl; lia].
Defined.

(** X13 when the response of the model has no text. *)
Lemma X13_no_text_witness :
  trace (get_gemini_review sample_diff "ai_key") world_no_text =
    [Print "正在將 diff 傳送給 Gemini 2.5 Pro 進行 Code Review...";
     Generate "ai_key" "gemini-2.5-pro" prompt;
     Print "✅ 成功收到 Gemini 的回覆！";
     Print ("❌ 錯誤：呼叫 Gemini API 時發生問題: " ++ "no valid Part")].
Proof.
  apply (X13_review_log world_no_text sample_diff "ai_key" eq_refl).
  reflexivity.
Defined.

(** X14 on the full run. *)
Lemma X14_model_call_witness :
  exists api_key model text,
    In (Generate api_key model text) (trace (main sample_repr) world_lgtm) /\
    api_key = "ai_key" /\ model = "gemini-2.5-pro" /\ text = prompt.
Proof.
  exists "ai_key", "gemini-2.5-pro", prompt.
  assert (In (Generate "ai_key" "gemini-2.5-pro" prompt)
             (trace (main sample_repr) world_lgtm)) as Hin by find_event.
  split; [exact Hin|].
  apply (X14_model_calls_of_a_run sample_repr world_lgtm
           "ghp_example" "octo" "demo" "ai_key" _ _ _
           (sample_configured _ _ _ _) Hin).
Defined.

(** X15 on the full run: PR #42, the sample diff, the review LGTM. *)
Lemma X15_full_run_witness :
  result (main sample_repr) world_lgtm = Returned tt /\
  In (Print "Repository: octo/demo") (trace (main sample_repr) world_lgtm).
Proof.
  pose proof (X15_successful_run sample_repr world_lgtm
                "ghp_example" "octo" "demo" "ai_key" (PInt 42) sample_diff "LGTM"
                (sample_configured _ _ _ _)
                eq_refl eq_refl eq_refl eq_refl eq_refl eq_refl) as E.
  unfold result, trace. rewrite E. split; [reflexivity|].
  cbn [snd]. find_event.
Defined.
